(** * ant-v.py: the trial loop of the vertical attention-cueing task

    A shallow embedding of [display] and of the trial loop of
    [src/ant-v.py] (lines 135-213), followed by the properties of one
    trial.

    The script is a sequence of calls on expyriment's screen, clock,
    keyboard and data file and on Python's random source.  Here it runs in
    a state-and-exception monad over a [World] that holds the script's
    variables, the mutable position of the stimuli, the data file, what the
    outside will answer (the random bits, the outcome of each keyboard
    wait), and a log of every call made.  The properties are read off that
    log.

    The calls on the screen, the clock and the data file are taken to
    succeed.  The keyboard wait is the one call of the loop by which the
    library can end the program: its outcome, a confirmed quit included,
    is given from outside and not computed. *)

From Stdlib Require Import ZArith List Ascii String Bool Lia Floats.
Import ListNotations.
Open Scope string_scope.
Open Scope list_scope.
Open Scope Z_scope.

(** ** Double-precision arithmetic on the values the jitter can take

    Line 170 computes [1500 + random.uniform(0, 2000)] in binary64, with
    [random.uniform(a, b)] being [a + (b - a) * random()] and [random()] a
    multiple of 2^-53 in [0, 1).  Every value occurring there is a
    non-negative multiple of 2^-53 far from overflow and underflow, so a
    double is represented by its numerator over 2^53, and each operation
    is the exact one followed by rounding to 53 significant bits. *)
Module Float64.

(** [Ticks n] stands for the real number n / 2^53. *)
Record dyadic : Set := Ticks { ticks : Z }.

Definition unit_ticks : Z := 2 ^ 53.

Definition of_int (n : Z) : dyadic := Ticks (n * unit_ticks).

(** The double k / 2^53 made of the low 53 bits of [bits]. *)
Definition of_bits (bits : Z) : dyadic := Ticks (bits mod unit_ticks).

(** Number of low bits that a 53-bit significand cannot hold. *)
Definition excess (n : Z) : Z := Z.max 0 (Z.log2 n - 52).

(** Round to nearest, ties to even, onto 53 significant bits. *)
Definition round (n : Z) : Z :=
  let e := excess n in
  let q := n / 2 ^ e in
  let r := n mod 2 ^ e in
  if 2 * r <? 2 ^ e then q * 2 ^ e
  else if 2 ^ e <? 2 * r then (q + 1) * 2 ^ e
  else if Z.even q then q * 2 ^ e else (q + 1) * 2 ^ e.

Definition add (x y : dyadic) : dyadic := Ticks (round (ticks x + ticks y)).

(** Product of an integer-valued double with a double. *)
Definition mul_int (n : Z) (y : dyadic) : dyadic := Ticks (round (n * ticks y)).

Definition leb (x y : dyadic) : bool := ticks x <=? ticks y.
Definition ltb (x y : dyadic) : bool := ticks x <? ticks y.

(** The hardware double of the same value, to cross-check [round]
    against the machine's own arithmetic. *)
Definition to_prim (x : dyadic) : float :=
  let e := excess (ticks x) in
  Z.ldexp (PrimFloat.of_uint63 (Uint63.of_Z (ticks x / 2 ^ e))) (e - 53).

End Float64.

(** ** Python values and exceptions *)
Module Py.

(** The cells of the trial table and of the data file: None, a bool, an
    int or a str. *)
Inductive value : Set :=
| VNone
| VBool (b : bool)
| VInt (n : Z)
| VStr (s : string).

(** [if v:] *)
Definition truthy (v : value) : bool :=
  match v with
  | VNone => false
  | VBool b => b
  | VInt n => negb (n =? 0)
  | VStr s => negb (s =? "")%string
  end.

(** [v == 'literal'] *)
Definition eq_str (v : value) (s : string) : bool :=
  match v with
  | VStr t => (t =? s)%string
  | _ => false
  end.

(** [key == CONSTANT] for a key returned by the keyboard: an int or None. *)
Definition eq_key (key : option Z) (k : Z) : bool :=
  match key with
  | Some n => n =? k
  | None => false
  end.

Definition of_option (o : option Z) : value :=
  match o with
  | Some n => VInt n
  | None => VNone
  end.

Inductive exn : Set :=
| NameError (name : string)
| AttributeError (name : string)
| KeyError (key : string)
| SystemExit.

(** Numbers handed to the clock: an int, or a double. *)
Inductive number : Set :=
| Int (n : Z)
| Float (x : Float64.dyadic).

End Py.

(** ** Constants of the script (lines 21-29) *)

Definition CUE_DISPLAY_DURATION : Z := 100.
Definition CUE_TARGET_INTERVAL : Z := 400.
Definition TARGET_DISPLAY_DURATION : Z := 200.
Definition MAX_RESPONSE_DURATION : Z := 1700.

(** [misc.constants.K_f] and [K_j]: the key codes of 'f' and 'j'. *)
Definition K_f : Z := 102.
Definition K_j : Z := 106.
Definition LEFT_RESPONSE_KEY : Z := K_f.
Definition RIGHT_RESPONSE_KEY : Z := K_j.

(** ** The preloaded stimuli (lines 85-132) *)

Inductive Stimulus : Set :=
| cross_black | cross_green | cross_red
| arrows_cong_left | arrows_cong_right | arrows_incong_left | arrows_incong_right
| box_bottom | box_top | cue_bottom | cue_top.

Definition Stimulus_eqb (a b : Stimulus) : bool :=
  match a, b with
  | cross_black, cross_black | cross_green, cross_green | cross_red, cross_red
  | arrows_cong_left, arrows_cong_left | arrows_cong_right, arrows_cong_right
  | arrows_incong_left, arrows_incong_left
  | arrows_incong_right, arrows_incong_right
  | box_bottom, box_bottom | box_top, box_top
  | cue_bottom, cue_bottom | cue_top, cue_top => true
  | _, _ => false
  end.

Definition is_arrows (s : Stimulus) : bool :=
  match s with
  | arrows_cong_left | arrows_cong_right
  | arrows_incong_left | arrows_incong_right => true
  | _ => false
  end.

(** [fixation_crosses] (lines 95-97), a dict with three keys. *)
Definition fixation_crosses : list (string * Stimulus) :=
  [("neutral", cross_black); ("positive", cross_green); ("negative", cross_red)].

(** ** The trial table

    [trials] is a pandas DataFrame; [trials.itertuples(index=False)] yields
    one named tuple per row, its fields in column order. *)

Record DataFrame : Set := {
  columns : list string;
  rows : list (list Py.value)
}.

Definition Trial : Set := list (string * Py.value).

Definition itertuples (df : DataFrame) : list Trial :=
  map (combine (columns df)) (rows df).

(** [list(trial)] *)
Definition values (trial : Trial) : list Py.value := map snd trial.

Definition field (trial : Trial) (name : string) : option Py.value :=
  match find (fun c => (fst c =? name)%string) trial with
  | Some c => Some (snd c)
  | None => None
  end.

(** ** The world the script runs in *)

Definition Position : Set := Z * Z.

(** What the keyboard wait returns: [(key, rt)], both None when it
    returns without a key. *)
Definition KeyResult : Set := option Z * option Z.

(** What a call of expyriment's [keyboard.wait] comes to.  The wait is the
    library's; the script sees its outcome only:
    - [Pressed key rt]: it returns the key and the time at which it saw
      the key, in ms from its own start (the library stamps the time when
      it polls the key and tests the deadline afterwards, so the time is
      not bounded by the duration asked for);
    - [NoKey]: the duration passes without a key, it returns (None, None);
    - [Declined elapsed]: control events are processed by default, so the
      quit key is never returned: it opens the library's quit dialog;
      when the participant declines, the wait returns (None, None) at
      once, [elapsed] ms after its start;
    - [Quit]: the participant confirms the quit dialog; the wait does not
      return and the program ends with SystemExit. *)
Inductive Answer : Set :=
| Pressed (key rt : Z)
| NoKey
| Declined (elapsed : Z)
| Quit.

(** The pair a wait hands to the script (none for [Quit], which never
    gets that far). *)
Definition returned (a : Answer) : KeyResult :=
  match a with
  | Pressed key rt => (Some key, Some rt)
  | NoKey => (None, None)
  | Declined _ => (None, None)
  | Quit => (None, None)
  end.

Inductive Event : Set :=
| EPresent (s : Stimulus) (at_ : Position) (clear update : bool)
| EClockWait (waiting_time : Py.number)
| EKeyboardWait (keys : option (list Z)) (duration : Z) (answer : Answer)
| EDataAdd (row : list Py.value).

Record World : Type := {
  (** [shift], fixed at start-up from the height of the rendered arrows *)
  shift : Z;
  (** current position of every stimulus object *)
  position : Stimulus -> Position;
  (** the script's variable [target_pos]; unbound until first assigned *)
  target_pos : option Position;
  (** the 53 random bits behind the n-th call of [random.random()] *)
  random_bits : nat -> Z;
  random_calls : nat;
  (** what the n-th keyboard wait of the session comes to *)
  keyboard_answers : nat -> Answer;
  keyboard_calls : nat;
  (** every call made on the screen, the clock, the keyboard and the data
      file, oldest first *)
  log : list Event;
  (** [exp.data]: declared variable names and the rows added so far *)
  data_variable_names : list string;
  data : list (list Py.value)
}.

Definition initial_position (sh : Z) (s : Stimulus) : Position :=
  match s with
  | box_bottom | cue_bottom => (0, - sh)
  | box_top | cue_top => (0, sh)
  | _ => (0, 0)
  end.

Definition initial_world (sh : Z) (rnd : nat -> Z) (keys : nat -> Answer) : World :=
  {| shift := sh; position := initial_position sh; target_pos := None;
     random_bits := rnd; random_calls := 0%nat;
     keyboard_answers := keys; keyboard_calls := 0%nat;
     log := []; data_variable_names := []; data := [] |}.

(** ** Computations: state passing with Python exceptions *)

Inductive outcome (A : Type) : Type :=
| Ret (a : A)
| Raise (e : Py.exn).
Arguments Ret {A} a.
Arguments Raise {A} e.

Definition M (A : Type) : Type := World -> outcome A * World.

Definition ret {A} (a : A) : M A := fun w => (Ret a, w).

Definition raise {A} (e : Py.exn) : M A := fun w => (Raise e, w).

Definition bind {A B} (m : M A) (k : A -> M B) : M B :=
  fun w =>
    match m w with
    | (Ret a, w') => k a w'
    | (Raise e, w') => (Raise e, w')
    end.

Notation "x <- m ;; k" := (bind m (fun x => k))
  (at level 61, m at next level, right associativity).
Notation "m ;; k" := (bind m (fun _ => k))
  (at level 61, right associativity).

(** Updates of one component of the world. *)
Definition with_log (l : list Event) (w : World) : World :=
  {| shift := shift w; position := position w; target_pos := target_pos w;
     random_bits := random_bits w; random_calls := random_calls w;
     keyboard_answers := keyboard_answers w; keyboard_calls := keyboard_calls w;
     log := l;
     data_variable_names := data_variable_names w; data := data w |}.

Definition with_position (f : Stimulus -> Position) (w : World) : World :=
  {| shift := shift w; position := f; target_pos := target_pos w;
     random_bits := random_bits w; random_calls := random_calls w;
     keyboard_answers := keyboard_answers w; keyboard_calls := keyboard_calls w;
     log := log w;
     data_variable_names := data_variable_names w; data := data w |}.

Definition with_target_pos (p : option Position) (w : World) : World :=
  {| shift := shift w; position := position w; target_pos := p;
     random_bits := random_bits w; random_calls := random_calls w;
     keyboard_answers := keyboard_answers w; keyboard_calls := keyboard_calls w;
     log := log w;
     data_variable_names := data_variable_names w; data := data w |}.

Definition with_random_calls (n : nat) (w : World) : World :=
  {| shift := shift w; position := position w; target_pos := target_pos w;
     random_bits := random_bits w; random_calls := n;
     keyboard_answers := keyboard_answers w; keyboard_calls := keyboard_calls w;
     log := log w;
     data_variable_names := data_variable_names w; data := data w |}.

Definition with_keyboard_calls (n : nat) (w : World) : World :=
  {| shift := shift w; position := position w; target_pos := target_pos w;
     random_bits := random_bits w; random_calls := random_calls w;
     keyboard_answers := keyboard_answers w; keyboard_calls := n;
     log := log w;
     data_variable_names := data_variable_names w; data := data w |}.

Definition with_data_variable_names (names : list string) (w : World) : World :=
  {| shift := shift w; position := position w; target_pos := target_pos w;
     random_bits := random_bits w; random_calls := random_calls w;
     keyboard_answers := keyboard_answers w; keyboard_calls := keyboard_calls w;
     log := log w;
     data_variable_names := names; data := data w |}.

Definition with_data (d : list (list Py.value)) (w : World) : World :=
  {| shift := shift w; position := position w; target_pos := target_pos w;
     random_bits := random_bits w; random_calls := random_calls w;
     keyboard_answers := keyboard_answers w; keyboard_calls := keyboard_calls w;
     log := log w;
     data_variable_names := data_variable_names w; data := d |}.

Definition emit (e : Event) : M unit :=
  fun w => (Ret tt, with_log (log w ++ [e]) w).

(** [emits evs w]: the world after the calls [evs] were logged. *)
Definition emits (evs : list Event) (w : World) : World :=
  with_log (log w ++ evs) w.

(** [trial.name] *)
Definition getattr (trial : Trial) (name : string) : M Py.value :=
  match field trial name with
  | Some v => ret v
  | None => raise (Py.AttributeError name)
  end.

(** ** The capabilities: expyriment's screen, clock, keyboard and data
    file, and Python's random source *)

(** [stimulus.present(clear, update)]: logged with the position the
    stimulus has at that moment. *)
Definition present (s : Stimulus) (clear update : bool) : M unit :=
  fun w => emit (EPresent s (position w s) clear update) w.

(** [stimulus.reposition(new_position)] *)
Definition reposition (s : Stimulus) (p : Position) : M unit :=
  fun w =>
    (Ret tt,
     with_position (fun s' => if Stimulus_eqb s s' then p else position w s') w).

(** [exp.clock.wait(waiting_time)] *)
Definition clock_wait (waiting_time : Py.number) : M unit :=
  emit (EClockWait waiting_time).

(** [random.random()]: the next 53 random bits over 2^53. *)
Definition random_random : M Float64.dyadic :=
  fun w =>
    (Ret (Float64.of_bits (random_bits w (random_calls w))),
     with_random_calls (S (random_calls w)) w).

(** [random.uniform(a, b)] is [a + (b - a) * random()]. *)
Definition random_uniform (a b : Z) : M Float64.dyadic :=
  r <- random_random ;;
  ret (Float64.add (Float64.of_int a) (Float64.mul_int (b - a) r)).

(** The outcome of the next keyboard wait. *)
Definition answer (w : World) : Answer := keyboard_answers w (keyboard_calls w).

(** [exp.keyboard.wait(keys, duration)]: the call is logged with its
    outcome; it returns the pair, or raises SystemExit. *)
Definition keyboard_wait (keys : option (list Z)) (duration : Z) : M KeyResult :=
  fun w =>
    let w' := with_log (log w ++ [EKeyboardWait keys duration (answer w)])
                (with_keyboard_calls (S (keyboard_calls w)) w) in
    match answer w with
    | Quit => (Raise Py.SystemExit, w')
    | a => (Ret (returned a), w')
    end.

(** [exp.add_data_variable_names(names)] *)
Definition add_data_variable_names (names : list string) : M unit :=
  fun w => (Ret tt, with_data_variable_names (data_variable_names w ++ names) w).

(** [exp.data.add(row)] *)
Definition data_add (row : list Py.value) : M unit :=
  fun w =>
    (Ret tt, with_log (log w ++ [EDataAdd row]) (with_data (data w ++ [row]) w)).

(** ** The script *)

Definition get_shift : M Z := fun w => (Ret (shift w), w).

(** [target_pos = p] *)
Definition assign_target_pos (p : Position) : M unit :=
  fun w => (Ret tt, with_target_pos (Some p) w).

(** Reading the variable [target_pos]. *)
Definition read_target_pos : M Position :=
  fun w =>
    match target_pos w with
    | Some p => (Ret p, w)
    | None => (Raise (Py.NameError "target_pos"), w)
    end.

(** [display(cross_type, top_cued, bottom_cued)] (lines 135-154) *)
Definition display (cross_type : string) (top_cued bottom_cued : Py.value) : M unit :=
  cross <- match find (fun c => (fst c =? cross_type)%string) fixation_crosses with
           | Some c => ret (snd c)
           | None => raise (Py.KeyError cross_type)
           end ;;
  present cross true false ;;
  (if Py.truthy top_cued
   then present cue_top false false
   else present box_top false false) ;;
  (if Py.truthy bottom_cued
   then present cue_bottom false true
   else present box_bottom false true).

Definition False_ : Py.value := Py.VBool false.

(** Lines 169-175: baseline, cue, cue-target interval. *)
Definition cue_phases (trial : Trial) : M unit :=
  display "neutral" False_ False_ ;;
  u <- random_uniform 0 2000 ;;
  clock_wait (Py.Float (Float64.add (Float64.of_int 1500) u)) ;;
  cue_up <- getattr trial "cue_up" ;;
  cue_down <- getattr trial "cue_down" ;;
  display "neutral" cue_up cue_down ;;
  clock_wait (Py.Int CUE_DISPLAY_DURATION) ;;
  display "neutral" False_ False_ ;;
  clock_wait (Py.Int CUE_TARGET_INTERVAL).

(** Lines 177-187: [# select target]. *)
Definition select_target (trial : Trial) : M Stimulus :=
  arrow_direction <- getattr trial "arrow_direction" ;;
  if Py.eq_str arrow_direction "left" then
    flanker_congruency <- getattr trial "flanker_congruency" ;;
    if Py.eq_str flanker_congruency "cong"
    then ret arrows_cong_left
    else ret arrows_incong_left
  else
    flanker_congruency <- getattr trial "flanker_congruency" ;;
    if Py.eq_str flanker_congruency "cong"
    then ret arrows_cong_right
    else ret arrows_incong_right.

(** Lines 189-199: [# display target]. *)
Definition display_target (trial : Trial) (target : Stimulus) : M unit :=
  target_position <- getattr trial "target_position" ;;
  (if Py.eq_str target_position "down"
   then sh <- get_shift ;; assign_target_pos (0, - sh)
   else ret tt) ;;
  target_position <- getattr trial "target_position" ;;
  (if Py.eq_str target_position "up"
   then sh <- get_shift ;; assign_target_pos (0, sh)
   else ret tt) ;;
  p <- read_target_pos ;;
  reposition target p ;;
  display "neutral" False_ False_ ;;
  present target false true ;;
  clock_wait (Py.Int TARGET_DISPLAY_DURATION) ;;
  display "neutral" False_ False_.

(** Lines 202-203: the reaction time as it is written to the data file. *)
Definition adjust_rt (rt : option Z) : option Z :=
  match rt with
  | Some t => Some (t + TARGET_DISPLAY_DURATION)
  | None => None
  end.

(** Lines 201-204: response window and data row. *)
Definition collect_response (trial : Trial) : M (option Z) :=
  kr <- keyboard_wait None MAX_RESPONSE_DURATION ;;
  let key := fst kr in
  let rt := adjust_rt (snd kr) in
  data_add (values trial ++ [Py.of_option key; Py.of_option rt]) ;;
  ret key.

(** Lines 207-208: the condition of the feedback branch, with the
    short-circuit evaluation of [and] and [or]. *)
Definition is_correct (trial : Trial) (key : option Z) : M bool :=
  left_ok <- (if Py.eq_key key LEFT_RESPONSE_KEY
              then d <- getattr trial "arrow_direction" ;; ret (Py.eq_str d "left")
              else ret false) ;;
  if left_ok then ret true
  else if Py.eq_key key RIGHT_RESPONSE_KEY
       then d <- getattr trial "arrow_direction" ;; ret (Py.eq_str d "right")
       else ret false.

(** Lines 206-213: [# feedback]. *)
Definition feedback (trial : Trial) (key : option Z) : M unit :=
  correct <- is_correct trial key ;;
  (if correct
   then display "positive" False_ False_
   else display "negative" False_ False_) ;;
  clock_wait (Py.Int 400).

(** The body of the [for] loop (lines 169-213). *)
Definition trial_body (trial : Trial) : M unit :=
  cue_phases trial ;;
  target <- select_target trial ;;
  display_target trial target ;;
  key <- collect_response trial ;;
  feedback trial key.

(** Lines 169-204 of the loop body: everything before [# feedback]. *)
Definition until_row (trial : Trial) : M (option Z) :=
  cue_phases trial ;;
  target <- select_target trial ;;
  display_target trial target ;;
  collect_response trial.

(** [for trial in trials.itertuples(index=False): ...]: an exception
    leaves the loop. *)
Fixpoint for_each (trials : list Trial) : M unit :=
  match trials with
  | [] => ret tt
  | trial :: rest => trial_body trial ;; for_each rest
  end.

(** Lines 156-157 and 168-213. *)
Definition run_trials (df : DataFrame) : M unit :=
  add_data_variable_names (columns df ++ ["response_key"; "reaction_time"]) ;;
  for_each (itertuples df).

(** ** What one trial does, as functions of the trial's fields *)

(** The target chosen by lines 178-187. *)
Definition target_of (arrow_direction flanker_congruency : Py.value) : Stimulus :=
  if Py.eq_str arrow_direction "left"
  then if Py.eq_str flanker_congruency "cong" then arrows_cong_left else arrows_incong_left
  else if Py.eq_str flanker_congruency "cong" then arrows_cong_right else arrows_incong_right.

(** The text of the arrow stimuli (lines 108-111). *)
Definition text (s : Stimulus) : string :=
  match s with
  | arrows_cong_left => " < < < < < "
  | arrows_cong_right => " > > > > > "
  | arrows_incong_left => " > > < > > "
  | arrows_incong_right => " < < > < < "
  | _ => ""
  end.

(** The arrow in the middle of the five, and the four around it. *)
Definition central_arrow (s : Stimulus) : option ascii := String.get 5 (text s).

Definition flankers (s : Stimulus) : list (option ascii) :=
  map (fun i => String.get i (text s)) [1; 3; 7; 9]%nat.

Definition option_ascii_eqb (a b : option ascii) : bool :=
  match a, b with
  | Some x, Some y => Ascii.eqb x y
  | None, None => true
  | _, _ => false
  end.

Definition congruent (s : Stimulus) : bool :=
  forallb (option_ascii_eqb (central_arrow s)) (flankers s).

(** The value of [target_pos] after lines 190-193. *)
Definition target_pos_after (w : World) (target_position : Py.value) : option Position :=
  if Py.eq_str target_position "up" then Some (0, shift w)
  else if Py.eq_str target_position "down" then Some (0, - shift w)
  else target_pos w.

(** The condition of lines 207-208. *)
Definition correct_response (arrow_direction : Py.value) (key : option Z) : bool :=
  (Py.eq_key key LEFT_RESPONSE_KEY && Py.eq_str arrow_direction "left")
  || (Py.eq_key key RIGHT_RESPONSE_KEY && Py.eq_str arrow_direction "right").

(** The argument of the first [exp.clock.wait] of a trial (line 170). *)
Definition baseline_duration (bits : Z) : Float64.dyadic :=
  Float64.add (Float64.of_int 1500)
    (Float64.add (Float64.of_int 0) (Float64.mul_int (2000 - 0) (Float64.of_bits bits))).

(** What the wait of the response window opened in [w] returns. *)
Definition response (w : World) : KeyResult := returned (answer w).

(** The row written by line 204. *)
Definition result_row (trial : Trial) (kr : KeyResult) : list Py.value :=
  values trial ++ [Py.of_option (fst kr); Py.of_option (adjust_rt (snd kr))].

(** The three [present] calls of one call of [display]. *)
Definition display_events (pos : Stimulus -> Position) (cross : Stimulus)
    (top_cued bottom_cued : bool) : list Event :=
  [EPresent cross (pos cross) true false;
   if top_cued
   then EPresent cue_top (pos cue_top) false false
   else EPresent box_top (pos box_top) false false;
   if bottom_cued
   then EPresent cue_bottom (pos cue_bottom) false true
   else EPresent box_bottom (pos box_bottom) false true].

(** Events of lines 169-170: the baseline. *)
Definition baseline_events (w : World) : list Event :=
  display_events (position w) cross_black false false
  ++ [EClockWait (Py.Float (baseline_duration (random_bits w (random_calls w))))].

(** Events of lines 169-175. *)
Definition cue_events (w : World) (cue_up cue_down : Py.value) : list Event :=
  baseline_events w
  ++ display_events (position w) cross_black (Py.truthy cue_up) (Py.truthy cue_down)
  ++ [EClockWait (Py.Int CUE_DISPLAY_DURATION)]
  ++ display_events (position w) cross_black false false
  ++ [EClockWait (Py.Int CUE_TARGET_INTERVAL)].

(** Events of lines 195-199. *)
Definition target_events (w : World) (target : Stimulus) (p : Position) : list Event :=
  display_events (position w) cross_black false false
  ++ [EPresent target p false true; EClockWait (Py.Int TARGET_DISPLAY_DURATION)]
  ++ display_events (position w) cross_black false false.

(** Events of lines 201-204. *)
Definition response_events (w : World) (trial : Trial) : list Event :=
  [EKeyboardWait None MAX_RESPONSE_DURATION (answer w);
   EDataAdd (result_row trial (response w))].

(** Events of lines 207-213. *)
Definition feedback_events (w : World) (correct : bool) : list Event :=
  display_events (position w) (if correct then cross_green else cross_red) false false
  ++ [EClockWait (Py.Int 400)].

(** Everything a trial that runs to its end does, in order. *)
Definition trial_events (w : World) (trial : Trial)
    (cue_up cue_down arrow_direction flanker_congruency : Py.value) (p : Position)
  : list Event :=
  cue_events w cue_up cue_down
  ++ target_events w (target_of arrow_direction flanker_congruency) p
  ++ response_events w trial
  ++ feedback_events w (correct_response arrow_direction (fst (response w))).

(** The world at the end of a trial that started in [w], read [row] and
    left the target at [p]. *)
Definition world_after (w : World) (target : Stimulus) (p : Position)
    (evs : list Event) (row : list Py.value) : World :=
  emits evs
    (with_data (data w ++ [row])
       (with_keyboard_calls (S (keyboard_calls w))
          (with_position (fun s => if Stimulus_eqb target s then p else position w s)
             (with_target_pos (Some p)
                (with_random_calls (S (random_calls w)) w))))).

(** The calls of a trial that the participant quits at the response
    window, and the world it leaves. *)
Definition quit_events (w : World) (cue_up cue_down : Py.value) (target : Stimulus)
    (p : Position) : list Event :=
  cue_events w cue_up cue_down
  ++ target_events w target p
  ++ [EKeyboardWait None MAX_RESPONSE_DURATION Quit].

Definition world_at_quit (w : World) (target : Stimulus) (p : Position)
    (evs : list Event) : World :=
  emits evs
    (with_keyboard_calls (S (keyboard_calls w))
       (with_position (fun s => if Stimulus_eqb target s then p else position w s)
          (with_target_pos (Some p)
             (with_random_calls (S (random_calls w)) w)))).

(** The five fields the loop body reads. *)
Record has_fields (trial : Trial)
    (cue_up cue_down arrow_direction flanker_congruency target_position : Py.value)
  : Prop := {
  f_cue_up : field trial "cue_up" = Some cue_up;
  f_cue_down : field trial "cue_down" = Some cue_down;
  f_arrow_direction : field trial "arrow_direction" = Some arrow_direction;
  f_flanker_congruency : field trial "flanker_congruency" = Some flanker_congruency;
  f_target_position : field trial "target_position" = Some target_position
}.

(** The rows that a sequence of calls adds to the data file. *)
Fixpoint rows_added (evs : list Event) : list (list Py.value) :=
  match evs with
  | [] => []
  | EDataAdd row :: rest => row :: rows_added rest
  | _ :: rest => rows_added rest
  end.

(** ** Reading a run *)

(** The calls made by one trial started in [w], and the rows it wrote. *)
Definition events_of (trial : Trial) (w : World) : list Event :=
  skipn (List.length (log w)) (log (snd (trial_body trial w))).

Definition rows_of (trial : Trial) (w : World) : list (list Py.value) :=
  skipn (List.length (data w)) (data (snd (trial_body trial w))).

(** A trial the loop can run whatever happened before it. *)
Definition valid_trial (trial : Trial) : Prop :=
  exists cu cd ad fc tp,
    has_fields trial cu cd ad fc tp /\ (tp = Py.VStr "up" \/ tp = Py.VStr "down").

(** The last two cells of a data row. *)
Definition reaction_time_cell (row : list Py.value) : Py.value :=
  last row Py.VNone.

Definition response_key_cell (row : list Py.value) : Py.value :=
  last (removelast row) Py.VNone.

(** The direction each response key stands for (lines 26-29, 207-208). *)
Definition bound_direction (k : Z) : option string :=
  if k =? LEFT_RESPONSE_KEY then Some "left"
  else if k =? RIGHT_RESPONSE_KEY then Some "right"
  else None.

Definition recognized (k : Z) : bool :=
  match bound_direction k with
  | Some _ => true
  | None => false
  end.

(** *** The screen

    [present] draws into a buffer, after clearing it when [clear] is set;
    [update] puts the buffer on the screen. *)

Definition Content : Set := list (Stimulus * Position).

Definition draw (buffer : Content) (s : Stimulus) (p : Position) (clear : bool) : Content :=
  (if clear then [] else buffer) ++ [(s, p)].

(** The frames put on the screen, one per [update]. *)
Fixpoint frames (buffer : Content) (evs : list Event) : list Content :=
  match evs with
  | [] => []
  | EPresent s p clear update :: rest =>
      if update
      then draw buffer s p clear :: frames (draw buffer s p clear) rest
      else frames (draw buffer s p clear) rest
  | _ :: rest => frames buffer rest
  end.

(** What is on the screen during each wait (clock or keyboard). *)
Fixpoint held (buffer screen : Content) (evs : list Event) : list Content :=
  match evs with
  | [] => []
  | EPresent s p clear update :: rest =>
      held (draw buffer s p clear)
           (if update then draw buffer s p clear else screen) rest
  | EClockWait _ :: rest => screen :: held buffer screen rest
  | EKeyboardWait _ _ _ :: rest => screen :: held buffer screen rest
  | EDataAdd _ :: rest => held buffer screen rest
  end.

(** The visual states of the specification. *)
Inductive Colour : Set := neutral | positive | negative.

Inductive VisualState : Set :=
| Fixation (c : Colour)
| FixationCueTop
| FixationCueBottom
| FixationCueBoth
| FixationTarget (which : Stimulus) (at_ : Position).

Definition colour_of (s : Stimulus) : option Colour :=
  match s with
  | cross_black => Some neutral
  | cross_green => Some positive
  | cross_red => Some negative
  | _ => None
  end.

(** The visual state that a screen content amounts to, if any. *)
Definition classify (c : Content) : option VisualState :=
  match c with
  | [(cross, _); (top, _); (bottom, _)] =>
      match colour_of cross, top, bottom with
      | Some col, box_top, box_bottom => Some (Fixation col)
      | Some neutral, cue_top, box_bottom => Some FixationCueTop
      | Some neutral, box_top, cue_bottom => Some FixationCueBottom
      | Some neutral, cue_top, cue_bottom => Some FixationCueBoth
      | _, _, _ => None
      end
  | [(cross_black, _); (box_top, _); (box_bottom, _); (arrows, p)] =>
      if is_arrows arrows then Some (FixationTarget arrows p) else None
  | _ => None
  end.

Definition rendered (evs : list Event) : list (option VisualState) :=
  map classify (frames [] evs).

Definition shown_in_phases (evs : list Event) : list (option VisualState) :=
  map classify (held [] [] evs).

(** The state shown in the last phase of a trial: the feedback. *)
Definition feedback_shown (evs : list Event) : option VisualState :=
  last (shown_in_phases evs) None.

(** *** The response window *)

(** Time from the start of [evs] to the deadline of the next keyboard
    wait, when only integer waits lie in between. *)
Fixpoint until_deadline (evs : list Event) : option Z :=
  match evs with
  | [] => None
  | EClockWait (Py.Int n) :: rest => option_map (Z.add n) (until_deadline rest)
  | EClockWait (Py.Float _) :: _ => None
  | EKeyboardWait _ duration _ :: _ => Some duration
  | _ :: rest => until_deadline rest
  end.

(** Time from target onset (the arrows reach the screen) to the moment
    the keyboard stops listening. *)
Fixpoint deadline_from_onset (evs : list Event) : option Z :=
  match evs with
  | [] => None
  | EPresent s _ _ true :: rest =>
      if is_arrows s then until_deadline rest else deadline_from_onset rest
  | _ :: rest => deadline_from_onset rest
  end.

(** The duration given to the first keyboard wait. *)
Fixpoint keyboard_budget (evs : list Event) : option Z :=
  match evs with
  | [] => None
  | EKeyboardWait _ duration _ :: _ => Some duration
  | _ :: rest => keyboard_budget rest
  end.

(** ** Sample trials and worlds *)

Definition sample_trial (cue_up cue_down : bool) (arrow_direction flanker_congruency
    target_position : string) : Trial :=
  [("cue_up", Py.VBool cue_up); ("cue_down", Py.VBool cue_down);
   ("arrow_direction", Py.VStr arrow_direction);
   ("flanker_congruency", Py.VStr flanker_congruency);
   ("target_position", Py.VStr target_position)].

(** A fresh session on a screen where [shift] is 70, with the same random
    bits at every draw and the same outcome of every keyboard wait. *)
Definition sample_world (bits : Z) (a : Answer) : World :=
  initial_world 70 (fun _ => bits) (fun _ => a).

(** A trial table of two rows, with a column the loop does not read. *)
Definition sample_table : DataFrame :=
  {| columns := ["block"; "cue_up"; "cue_down"; "arrow_direction";
                 "flanker_congruency"; "target_position"];
     rows := [[Py.VInt 1; Py.VBool true; Py.VBool false; Py.VStr "left";
               Py.VStr "cong"; Py.VStr "up"];
              [Py.VInt 1; Py.VBool false; Py.VBool false; Py.VStr "right";
               Py.VStr "incong"; Py.VStr "down"]] |}.

(** The double 1500 + (0 + (2000 - 0) * r) as the machine computes it. *)
Definition machine_baseline (bits : Z) : float :=
  (1500 + (0 + (2000 - 0) * Float64.to_prim (Float64.of_bits bits)))%float.

(** ** More readings of a run *)

(** The state [display] shows for the two cue flags under the neutral
    cross. *)
Definition cue_state (top_cued bottom_cued : bool) : VisualState :=
  match top_cued, bottom_cued with
  | false, false => Fixation neutral
  | true, false => FixationCueTop
  | false, true => FixationCueBottom
  | true, true => FixationCueBoth
  end.

(** The three stimuli one call of [display] draws. *)
Definition display_content (pos : Stimulus -> Position) (cross : Stimulus)
    (top_cued bottom_cued : bool) : Content :=
  [(cross, pos cross);
   if top_cued then (cue_top, pos cue_top) else (box_top, pos box_top);
   if bottom_cued then (cue_bottom, pos cue_bottom) else (box_bottom, pos box_bottom)].

(** The arrow that points in a direction, and the other one. *)
Definition arrow_of (direction : string) : ascii :=
  if (direction =? "left")%string then "<"%char else ">"%char.

Definition opposite (arrow : ascii) : ascii :=
  if Ascii.eqb arrow "<" then ">"%char else "<"%char.

(** What a run leaves as it found it: [shift], the answers of the outside,
    the declared names, and the position of every stimulus that is not an
    arrow line. *)
Definition untouched (w w' : World) : Prop :=
  shift w' = shift w
  /\ random_bits w' = random_bits w
  /\ keyboard_answers w' = keyboard_answers w
  /\ data_variable_names w' = data_variable_names w
  /\ forall s, is_arrows s = false -> position w' s = position w s.

(** The frames sit above and below the cross at distance [shift], as
    lines 124-127 create them. *)
Definition frames_in_place (w : World) : Prop :=
  position w box_top = (0, shift w)
  /\ position w cue_top = (0, shift w)
  /\ position w box_bottom = (0, - shift w)
  /\ position w cue_bottom = (0, - shift w).

(** Why a trial raises, and the calls it has made by then: the first of
    the five fields that the row lacks, in the order the loop body reads
    them; [target_pos] read before any assignment; or the participant
    quitting at the response window. *)
Inductive failure (trial : Trial) (w : World) : Py.exn -> list Event -> Prop :=
| no_cue_up :
    field trial "cue_up" = None ->
    failure trial w (Py.AttributeError "cue_up") (baseline_events w)
| no_cue_down cu :
    field trial "cue_up" = Some cu ->
    field trial "cue_down" = None ->
    failure trial w (Py.AttributeError "cue_down") (baseline_events w)
| no_arrow_direction cu cd :
    field trial "cue_up" = Some cu ->
    field trial "cue_down" = Some cd ->
    field trial "arrow_direction" = None ->
    failure trial w (Py.AttributeError "arrow_direction") (cue_events w cu cd)
| no_flanker_congruency cu cd ad :
    field trial "cue_up" = Some cu ->
    field trial "cue_down" = Some cd ->
    field trial "arrow_direction" = Some ad ->
    field trial "flanker_congruency" = None ->
    failure trial w (Py.AttributeError "flanker_congruency") (cue_events w cu cd)
| no_target_position cu cd ad fc :
    field trial "cue_up" = Some cu ->
    field trial "cue_down" = Some cd ->
    field trial "arrow_direction" = Some ad ->
    field trial "flanker_congruency" = Some fc ->
    field trial "target_position" = None ->
    failure trial w (Py.AttributeError "target_position") (cue_events w cu cd)
| unbound_target_pos cu cd ad fc tp :
    has_fields trial cu cd ad fc tp ->
    target_pos_after w tp = None ->
    failure trial w (Py.NameError "target_pos") (cue_events w cu cd)
| quit_at_response cu cd ad fc tp p :
    has_fields trial cu cd ad fc tp ->
    target_pos_after w tp = Some p ->
    answer w = Quit ->
    failure trial w Py.SystemExit (quit_events w cu cd (target_of ad fc) p).

(** Time spent in a call, in units of 2^-53 ms: the waiting time of a
    clock wait; for a keyboard wait that returns, the time of the key,
    the whole duration when no key came, or the time at which a quit was
    declined. *)
Definition waited (e : Event) : Z :=
  match e with
  | EClockWait (Py.Int n) => n * Float64.unit_ticks
  | EClockWait (Py.Float x) => Float64.ticks x
  | EKeyboardWait _ _ (Pressed _ t) => t * Float64.unit_ticks
  | EKeyboardWait _ duration NoKey => duration * Float64.unit_ticks
  | EKeyboardWait _ _ (Declined t) => t * Float64.unit_ticks
  | _ => 0
  end.

(** The time the response window takes as the returned pair tells it: up
    to the key, or all of it. *)
Definition response_time (kr : KeyResult) : Z :=
  match snd kr with
  | Some t => t
  | None => MAX_RESPONSE_DURATION
  end.

(** The same time, read off the outcome of the wait: a declined quit
    ends the window early. *)
Definition window_time (a : Answer) : Z :=
  match a with
  | Pressed _ t => t
  | NoKey => MAX_RESPONSE_DURATION
  | Declined t => t
  | Quit => 0
  end.

Definition total_wait (evs : list Event) : Z :=
  fold_right (fun e acc => waited e + acc) 0 evs.

(** The waits of a double length among the calls: the baselines. *)
Fixpoint baselines (evs : list Event) : list Float64.dyadic :=
  match evs with
  | [] => []
  | EClockWait (Py.Float x) :: rest => x :: baselines rest
  | _ :: rest => baselines rest
  end.

(** The calls made and the rows written by the loop started in [w]. *)
Definition loop_events (trials : list Trial) (w : World) : list Event :=
  skipn (List.length (log w)) (log (snd (for_each trials w))).

Definition loop_rows (trials : list Trial) (w : World) : list (list Py.value) :=
  skipn (List.length (data w)) (data (snd (for_each trials w))).

(** The row of each trial when the n-th keyboard wait of the session
    answers the first of them. *)
Fixpoint rows_from (w : World) (n : nat) (trials : list Trial) : list (list Py.value) :=
  match trials with
  | [] => []
  | trial :: rest =>
      result_row trial (returned (keyboard_answers w n))
      :: rows_from w (S n) rest
  end.

(** No keyboard wait from the n-th on, [count] of them, ends in a quit. *)
Fixpoint no_quit (w : World) (n : nat) (count : nat) : Prop :=
  match count with
  | O => True
  | S count' => keyboard_answers w n <> Quit /\ no_quit w (S n) count'
  end.

(** The baseline of each of [count] trials when the n-th draw of the
    session serves the first of them. *)
Fixpoint baselines_from (w : World) (n : nat) (count : nat) : list Float64.dyadic :=
  match count with
  | O => []
  | S count' => baseline_duration (random_bits w n) :: baselines_from w (S n) count'
  end.

(** * Properties *)

(** ** Rounding keeps a sum or product between representable bounds *)
Module Float64Facts.
Import Float64.

Lemma excess_nonneg n : 0 <= excess n.
Proof. unfold excess; lia. Qed.

Lemma excess_bound n k : 0 <= n < 2 ^ k -> 53 <= k -> excess n <= k - 53.
Proof.
  intros [Hn Hlt] Hk. unfold excess.
  destruct (Z.eq_dec n 0) as [-> | Hnz]; [ cbn; lia | ].
  assert (Z.log2 n < k) by (apply Z.log2_lt_pow2; lia).
  lia.
Qed.

(** Rounding does not cross a bound that is itself representable with
    the exponent of the rounded number. *)
Section Rounding.

Variable n : Z.
Hypothesis n_nonneg : 0 <= n.

Let e := excess n.
Let q := n / 2 ^ e.
Let r := n mod 2 ^ e.

Lemma quotient_remainder : 0 < 2 ^ e /\ n = 2 ^ e * q + r /\ 0 <= r < 2 ^ e.
Proof.
  assert (Hp : 0 < 2 ^ e) by (apply Z.pow_pos_nonneg; [ lia | apply excess_nonneg ]).
  split; [ exact Hp | ]. split.
  - apply Z.div_mod. lia.
  - apply Z.mod_pos_bound. exact Hp.
Qed.

Lemma round_le c : n <= c * 2 ^ e -> round n <= c * 2 ^ e.
Proof.
  intros Hle. destruct quotient_remainder as (Hp & Hdm & Hr).
  unfold round. fold e. fold q. fold r.
  destruct (2 * r <? 2 ^ e) eqn:E1; [ nia | ].
  apply Z.ltb_ge in E1.
  assert (q + 1 <= c) by nia.
  destruct (2 ^ e <? 2 * r); [ nia | ].
  destruct (Z.even q); nia.
Qed.

Lemma round_ge c : c * 2 ^ e <= n -> c * 2 ^ e <= round n.
Proof.
  intros Hle. destruct quotient_remainder as (Hp & Hdm & Hr).
  unfold round. fold e. fold q. fold r.
  assert (c <= q) by nia.
  destruct (2 * r <? 2 ^ e); [ nia | ].
  destruct (2 ^ e <? 2 * r); [ nia | ].
  destruct (Z.even q); nia.
Qed.

End Rounding.

(** Bounds that are multiples of 2^53 are representable at every exponent
    up to 2^53. *)
Lemma multiple_of_unit m e : 0 <= e <= 53 -> m * unit_ticks = (m * 2 ^ (53 - e)) * 2 ^ e.
Proof.
  intros He. unfold unit_ticks.
  replace 53 with ((53 - e) + e) at 1 by lia.
  rewrite Z.pow_add_r by lia. ring.
Qed.

Lemma round_between a b n k :
  0 <= a -> a * unit_ticks <= n <= b * unit_ticks ->
  n < 2 ^ k -> 53 <= k <= 106 ->
  a * unit_ticks <= round n <= b * unit_ticks.
Proof.
  intros Ha [Hlo Hhi] Hk Hk'.
  assert (Hu : 0 < unit_ticks) by reflexivity.
  assert (Hn : 0 <= n) by nia.
  pose proof (excess_nonneg n) as He0.
  pose proof (excess_bound n k ltac:(lia) ltac:(lia)) as He.
  rewrite (multiple_of_unit a (excess n)) in * by lia.
  rewrite (multiple_of_unit b (excess n)) in * by lia.
  split; [ apply round_ge | apply round_le ]; lia.
Qed.

Lemma of_bits_range bits : 0 <= ticks (of_bits bits) < unit_ticks.
Proof. cbn [of_bits ticks]. apply Z.mod_pos_bound. reflexivity. Qed.

End Float64Facts.

(** The baseline lasts between 1500 and 3500 ms, both bounds included. *)
Lemma baseline_duration_range bits :
  1500 * Float64.unit_ticks <= Float64.ticks (baseline_duration bits)
  <= 3500 * Float64.unit_ticks.
Proof.
  pose proof (Float64Facts.of_bits_range bits) as Hr.
  unfold baseline_duration, Float64.add, Float64.mul_int.
  cbn [Float64.ticks Float64.of_int].
  set (r := Float64.ticks (Float64.of_bits bits)) in *.
  assert (Hu : Float64.unit_ticks = 2 ^ 53) by reflexivity.
  assert (H64 : 2 ^ 64 = 2048 * 2 ^ 53) by reflexivity.
  assert (H65 : 2 ^ 65 = 4096 * 2 ^ 53) by reflexivity.
  assert (H1 : 0 * Float64.unit_ticks <= Float64.round ((2000 - 0) * r)
               <= 2000 * Float64.unit_ticks).
  { apply Float64Facts.round_between with (k := 64); lia. }
  assert (H2 : 0 * Float64.unit_ticks
               <= Float64.round (0 * Float64.unit_ticks + Float64.round ((2000 - 0) * r))
               <= 2000 * Float64.unit_ticks).
  { apply Float64Facts.round_between with (k := 64); lia. }
  apply Float64Facts.round_between with (k := 65); lia.
Qed.

(** ** Running computations *)

(** Rounding is not unfolded when worlds are compared. *)
Opaque Float64.round.

Lemma run_bind {A B} (m : M A) (k : A -> M B) w a w' :
  m w = (Ret a, w') -> bind m k w = k a w'.
Proof. unfold bind; intros ->; reflexivity. Qed.

Lemma run_bind_raise {A B} (m : M A) (k : A -> M B) w e w' :
  m w = (Raise e, w') -> bind m k w = (Raise e, w').
Proof. unfold bind; intros ->; reflexivity. Qed.

Lemma run_ret_bind {A B} (a : A) (k : A -> M B) w :
  bind (ret a) k w = k a w.
Proof. reflexivity. Qed.

Lemma emits_emits evs1 evs2 w :
  emits evs2 (emits evs1 w) = emits (evs1 ++ evs2) w.
Proof.
  unfold emits, with_log; cbn [log shift position target_pos random_bits
    random_calls keyboard_answers keyboard_calls data_variable_names data].
  now rewrite app_assoc.
Qed.

Lemma run_present s clear update w :
  present s clear update w = (Ret tt, emits [EPresent s (position w s) clear update] w).
Proof. reflexivity. Qed.

Lemma run_clock_wait t w : clock_wait t w = (Ret tt, emits [EClockWait t] w).
Proof. reflexivity. Qed.

Lemma run_display c cross a b w :
  In (c, cross) fixation_crosses ->
  display c a b w = (Ret tt, emits (display_events (position w) cross (Py.truthy a) (Py.truthy b)) w).
Proof.
  intros Hin.
  assert (Hc : find (fun x => (fst x =? c)%string) fixation_crosses = Some (c, cross)).
  { cbn in Hin.
    destruct Hin as [H | [H | [H | []]]]; inversion H; subst; reflexivity. }
  unfold display. rewrite Hc. rewrite run_ret_bind. cbn [snd].
  erewrite run_bind by apply run_present.
  destruct (Py.truthy a), (Py.truthy b);
    (erewrite run_bind by apply run_present);
    rewrite run_present, !emits_emits; reflexivity.
Qed.

Lemma neutral_in : In ("neutral", cross_black) fixation_crosses.
Proof. cbn; auto. Qed.

Lemma positive_in : In ("positive", cross_green) fixation_crosses.
Proof. cbn; auto. Qed.

Lemma negative_in : In ("negative", cross_red) fixation_crosses.
Proof. cbn; auto. Qed.

(** ** Running the blocks of the loop body *)

Ltac open_world :=
  match goal with w : World |- _ => destruct w end;
  cbv [emits with_log with_position with_target_pos with_random_calls
       with_keyboard_calls with_data
       log shift position target_pos random_bits random_calls keyboard_answers
       keyboard_calls data_variable_names data
       response answer baseline_duration Stimulus_eqb].

Ltac same_world := open_world; rewrite <- ?app_assoc; reflexivity.

Create HintDb run.
#[local] Hint Resolve neutral_in positive_in negative_in : run.

Ltac run_with lem := erewrite run_bind by (eapply lem; eauto with run).

Lemma run_getattr trial name v w :
  field trial name = Some v -> getattr trial name w = (Ret v, w).
Proof. unfold getattr; intros ->; reflexivity. Qed.

Lemma run_getattr_missing trial name w :
  field trial name = None ->
  getattr trial name w = (Raise (Py.AttributeError name), w).
Proof. unfold getattr; intros ->; reflexivity. Qed.

Lemma run_random_uniform a b w :
  random_uniform a b w
  = (Ret (Float64.add (Float64.of_int a)
            (Float64.mul_int (b - a) (Float64.of_bits (random_bits w (random_calls w))))),
     with_random_calls (S (random_calls w)) w).
Proof. reflexivity. Qed.

Lemma run_cue_phases trial w cue_up cue_down :
  field trial "cue_up" = Some cue_up ->
  field trial "cue_down" = Some cue_down ->
  cue_phases trial w
  = (Ret tt, emits (cue_events w cue_up cue_down) (with_random_calls (S (random_calls w)) w)).
Proof.
  intros Hu Hd. unfold cue_phases.
  run_with run_display.
  run_with run_random_uniform.
  run_with run_clock_wait.
  run_with run_getattr.
  run_with run_getattr.
  run_with run_display.
  run_with run_clock_wait.
  run_with run_display.
  rewrite run_clock_wait. f_equal. unfold cue_events, baseline_events. same_world.
Qed.

Lemma run_select_target trial w arrow_direction flanker_congruency :
  field trial "arrow_direction" = Some arrow_direction ->
  field trial "flanker_congruency" = Some flanker_congruency ->
  select_target trial w = (Ret (target_of arrow_direction flanker_congruency), w).
Proof.
  intros Ha Hf. unfold select_target, target_of.
  run_with run_getattr.
  destruct (Py.eq_str arrow_direction "left");
    run_with run_getattr;
    destruct (Py.eq_str flanker_congruency "cong"); reflexivity.
Qed.

Lemma target_of_is_arrows a f : is_arrows (target_of a f) = true.
Proof.
  unfold target_of.
  destruct (Py.eq_str a "left"), (Py.eq_str f "cong"); reflexivity.
Qed.

(** Lines 190-194: the two tests on [target_position], then the read of
    [target_pos]. *)
Lemma run_position_target trial w target_position {B} (k : Position -> M B) :
  field trial "target_position" = Some target_position ->
  (tp <- getattr trial "target_position" ;;
   (if Py.eq_str tp "down"
    then sh <- get_shift ;; assign_target_pos (0, - sh)
    else ret tt) ;;
   tp' <- getattr trial "target_position" ;;
   (if Py.eq_str tp' "up"
    then sh <- get_shift ;; assign_target_pos (0, sh)
    else ret tt) ;;
   p <- read_target_pos ;; k p) w
  = match target_pos_after w target_position with
    | Some p => k p (with_target_pos (Some p) w)
    | None => (Raise (Py.NameError "target_pos"), w)
    end.
Proof.
  intros Ht. unfold target_pos_after.
  run_with run_getattr.
  destruct (Py.eq_str target_position "down") eqn:Ed;
    destruct (Py.eq_str target_position "up") eqn:Eu.
  - unfold bind at 1. cbn [get_shift assign_target_pos bind].
    run_with run_getattr. rewrite Eu. reflexivity.
  - unfold bind at 1. cbn [get_shift assign_target_pos bind].
    run_with run_getattr. rewrite Eu. reflexivity.
  - rewrite run_ret_bind. run_with run_getattr. rewrite Eu. reflexivity.
  - rewrite run_ret_bind. run_with run_getattr. rewrite Eu.
    rewrite run_ret_bind. unfold bind, read_target_pos.
    destruct w as [sh pos [p|] rb rc kp kc l names d]; reflexivity.
Qed.

Lemma run_display_target trial w target target_position p :
  field trial "target_position" = Some target_position ->
  is_arrows target = true ->
  target_pos_after w target_position = Some p ->
  display_target trial target w
  = (Ret tt,
     emits (target_events w target p)
       (with_position (fun s => if Stimulus_eqb target s then p else position w s)
          (with_target_pos (Some p) w))).
Proof.
  intros Ht Ha Hp. unfold display_target.
  rewrite (run_position_target trial w target_position) by exact Ht.
  rewrite Hp.
  erewrite run_bind by reflexivity.
  run_with run_display.
  run_with run_present.
  run_with run_clock_wait.
  erewrite run_display by exact neutral_in.
  f_equal. unfold target_events, display_events.
  destruct target; try discriminate Ha; same_world.
Qed.

Lemma run_display_target_unbound trial w target target_position :
  field trial "target_position" = Some target_position ->
  target_pos_after w target_position = None ->
  display_target trial target w = (Raise (Py.NameError "target_pos"), w).
Proof.
  intros Ht Hp. unfold display_target.
  rewrite (run_position_target trial w target_position) by exact Ht.
  now rewrite Hp.
Qed.

Lemma run_keyboard_wait keys duration w :
  answer w <> Quit ->
  keyboard_wait keys duration w
  = (Ret (response w),
     emits [EKeyboardWait keys duration (answer w)]
       (with_keyboard_calls (S (keyboard_calls w)) w)).
Proof.
  intros Hq. unfold keyboard_wait, response.
  destruct (answer w); [ reflexivity | reflexivity | reflexivity | contradiction ].
Qed.

Lemma run_keyboard_wait_quit keys duration w :
  answer w = Quit ->
  keyboard_wait keys duration w
  = (Raise Py.SystemExit,
     emits [EKeyboardWait keys duration Quit]
       (with_keyboard_calls (S (keyboard_calls w)) w)).
Proof. intros Hq. unfold keyboard_wait. rewrite Hq. reflexivity. Qed.

Lemma run_data_add row w :
  data_add row w = (Ret tt, emits [EDataAdd row] (with_data (data w ++ [row]) w)).
Proof. reflexivity. Qed.

Lemma run_collect_response trial w :
  answer w <> Quit ->
  collect_response trial w
  = (Ret (fst (response w)),
     emits (response_events w trial)
       (with_data (data w ++ [result_row trial (response w)])
          (with_keyboard_calls (S (keyboard_calls w)) w))).
Proof.
  intros Hq. unfold collect_response.
  run_with run_keyboard_wait.
  run_with run_data_add.
  unfold ret, response_events. f_equal. same_world.
Qed.

Lemma run_collect_response_quit trial w :
  answer w = Quit ->
  collect_response trial w
  = (Raise Py.SystemExit,
     emits [EKeyboardWait None MAX_RESPONSE_DURATION Quit]
       (with_keyboard_calls (S (keyboard_calls w)) w)).
Proof.
  intros Hq. unfold collect_response.
  now erewrite run_bind_raise by (now apply run_keyboard_wait_quit).
Qed.

Lemma run_test_direction trial w arrow_direction s :
  field trial "arrow_direction" = Some arrow_direction ->
  (d <- getattr trial "arrow_direction" ;; ret (Py.eq_str d s)) w
  = (Ret (Py.eq_str arrow_direction s), w).
Proof. intros Ha. run_with run_getattr. reflexivity. Qed.

Lemma run_is_correct trial key w arrow_direction :
  field trial "arrow_direction" = Some arrow_direction ->
  is_correct trial key w = (Ret (correct_response arrow_direction key), w).
Proof.
  intros Ha. unfold is_correct, correct_response.
  destruct (Py.eq_key key LEFT_RESPONSE_KEY); cbn [andb orb].
  - run_with run_test_direction.
    destruct (Py.eq_str arrow_direction "left"); cbn [orb]; [ reflexivity | ].
    destruct (Py.eq_key key RIGHT_RESPONSE_KEY); cbn [andb]; [ | reflexivity ].
    now apply run_test_direction.
  - rewrite run_ret_bind.
    destruct (Py.eq_key key RIGHT_RESPONSE_KEY); cbn [andb]; [ | reflexivity ].
    now apply run_test_direction.
Qed.

Lemma run_feedback trial key w arrow_direction :
  field trial "arrow_direction" = Some arrow_direction ->
  feedback trial key w
  = (Ret tt, emits (feedback_events w (correct_response arrow_direction key)) w).
Proof.
  intros Ha. unfold feedback, feedback_events.
  run_with run_is_correct.
  destruct (correct_response arrow_direction key);
    run_with run_display; rewrite run_clock_wait, emits_emits; reflexivity.
Qed.

(** The loop body up to the response window: lines 169-199. *)
Lemma run_until_window trial w cu cd ad fc tp p {B} (k : M B) :
  has_fields trial cu cd ad fc tp ->
  target_pos_after w tp = Some p ->
  (cue_phases trial ;;
   target <- select_target trial ;;
   display_target trial target ;; k) w
  = k (emits (cue_events w cu cd ++ target_events w (target_of ad fc) p)
         (with_position
            (fun s => if Stimulus_eqb (target_of ad fc) s then p else position w s)
            (with_target_pos (Some p) (with_random_calls (S (random_calls w)) w)))).
Proof.
  intros [Hcu Hcd Had Hfc Htp] Hp.
  run_with run_cue_phases.
  run_with run_select_target.
  erewrite run_bind;
    [ | eapply run_display_target;
        [ eassumption | apply target_of_is_arrows | exact Hp ] ].
  f_equal. unfold cue_events, baseline_events, target_events, display_events.
  pose proof (target_of_is_arrows ad fc) as Ha.
  destruct (target_of ad fc); try discriminate Ha; same_world.
Qed.

(** A trial whose five fields exist, whose target position is known and
    whose response wait returns runs to its end and does exactly
    [trial_events]. *)
Lemma run_trial_body trial w cu cd ad fc tp p :
  has_fields trial cu cd ad fc tp ->
  target_pos_after w tp = Some p ->
  answer w <> Quit ->
  trial_body trial w
  = (Ret tt,
     world_after w (target_of ad fc) p (trial_events w trial cu cd ad fc p)
       (result_row trial (response w))).
Proof.
  intros Hf Hp Hq. unfold trial_body.
  rewrite (run_until_window trial w cu cd ad fc tp p _ Hf Hp).
  erewrite run_bind; [ | apply run_collect_response; exact Hq ].
  destruct Hf as [Hcu Hcd Had Hfc Htp].
  erewrite run_feedback by eassumption.
  f_equal. unfold world_after, trial_events, cue_events, baseline_events, target_events,
    response_events, feedback_events, display_events.
  pose proof (target_of_is_arrows ad fc) as Ha.
  destruct (target_of ad fc); try discriminate Ha;
    open_world; destruct (correct_response ad _);
    rewrite <- ?app_assoc; reflexivity.
Qed.

(** The same trial, when the participant quits at the response window. *)
Lemma run_trial_body_quit trial w cu cd ad fc tp p :
  has_fields trial cu cd ad fc tp ->
  target_pos_after w tp = Some p ->
  answer w = Quit ->
  trial_body trial w
  = (Raise Py.SystemExit,
     world_at_quit w (target_of ad fc) p (quit_events w cu cd (target_of ad fc) p)).
Proof.
  intros Hf Hp Hq. unfold trial_body.
  rewrite (run_until_window trial w cu cd ad fc tp p _ Hf Hp).
  erewrite run_bind_raise; [ | apply run_collect_response_quit; exact Hq ].
  f_equal. unfold world_at_quit, quit_events, cue_events, baseline_events, target_events,
    display_events.
  pose proof (target_of_is_arrows ad fc) as Ha.
  destruct (target_of ad fc); try discriminate Ha; same_world.
Qed.

(** ** How a trial ends *)

Lemma rows_added_app evs1 evs2 :
  rows_added (evs1 ++ evs2) = rows_added evs1 ++ rows_added evs2.
Proof.
  induction evs1 as [ | e evs1 IH ]; [ reflexivity | ].
  destruct e; cbn; now rewrite IH.
Qed.

Lemma rows_added_display pos cross a b : rows_added (display_events pos cross a b) = [].
Proof. destruct a, b; reflexivity. Qed.

Lemma rows_added_baseline w : rows_added (baseline_events w) = [].
Proof. unfold baseline_events. now rewrite rows_added_app, rows_added_display. Qed.

Lemma rows_added_cue w cu cd : rows_added (cue_events w cu cd) = [].
Proof.
  unfold cue_events.
  now rewrite !rows_added_app, rows_added_baseline, !rows_added_display.
Qed.

Lemma rows_added_target w target p : rows_added (target_events w target p) = [].
Proof. unfold target_events. now rewrite !rows_added_app, !rows_added_display. Qed.

Lemma run_baseline {B} (k : M B) w :
  (display "neutral" False_ False_ ;;
   u <- random_uniform 0 2000 ;;
   clock_wait (Py.Float (Float64.add (Float64.of_int 1500) u)) ;; k) w
  = k (emits (baseline_events w) (with_random_calls (S (random_calls w)) w)).
Proof.
  run_with run_display.
  run_with run_random_uniform.
  run_with run_clock_wait.
  f_equal. unfold baseline_events. same_world.
Qed.

(** A trial either has what it takes to run to its end, or has a reason
    to fail. *)
Lemma complete_or_failure trial w :
  (exists cu cd ad fc tp p,
      has_fields trial cu cd ad fc tp
      /\ target_pos_after w tp = Some p
      /\ answer w <> Quit)
  \/ exists e evs, failure trial w e evs.
Proof.
  destruct (field trial "cue_up") as [cu | ] eqn:Hcu;
    [ | right; eauto using no_cue_up ].
  destruct (field trial "cue_down") as [cd | ] eqn:Hcd;
    [ | right; eauto using no_cue_down ].
  destruct (field trial "arrow_direction") as [ad | ] eqn:Had;
    [ | right; eauto using no_arrow_direction ].
  destruct (field trial "flanker_congruency") as [fc | ] eqn:Hfc;
    [ | right; eauto using no_flanker_congruency ].
  destruct (field trial "target_position") as [tp | ] eqn:Htp;
    [ | right; eauto using no_target_position ].
  assert (Hf : has_fields trial cu cd ad fc tp) by now constructor.
  destruct (target_pos_after w tp) as [p | ] eqn:Hp;
    [ | right; eauto using unbound_target_pos ].
  destruct (answer w) as [key rt | | elapsed | ] eqn:Hq.
  1-3: left; exists cu, cd, ad, fc, tp, p; repeat split; try assumption; discriminate.
  right. eauto using quit_at_response.
Qed.

(** A trial that has a reason to fail raises, having made the calls that
    go with the reason and written nothing. *)
Lemma run_failure trial w e evs :
  failure trial w e evs ->
  exists w',
    trial_body trial w = (Raise e, w')
    /\ log w' = log w ++ evs
    /\ data w' = data w
    /\ random_calls w' = S (random_calls w)
    /\ untouched w w'.
Proof.
  intros Hfail.
  assert (Hearly : forall evs0,
             untouched w (emits evs0 (with_random_calls (S (random_calls w)) w))
             /\ log (emits evs0 (with_random_calls (S (random_calls w)) w)) = log w ++ evs0
             /\ data (emits evs0 (with_random_calls (S (random_calls w)) w)) = data w
             /\ random_calls (emits evs0 (with_random_calls (S (random_calls w)) w))
                = S (random_calls w)).
  { intros evs0. destruct w. cbn. repeat split. }
  destruct Hfail as [ Hcu | cu Hcu Hcd | cu cd Hcu Hcd Had | cu cd ad Hcu Hcd Had Hfc
                    | cu cd ad fc Hcu Hcd Had Hfc Htp | cu cd ad fc tp Hf Hp
                    | cu cd ad fc tp p Hf Hp Hq ].
  1-6: match goal with
       | |- exists w', _ /\ log w' = log ?w0 ++ ?evs0 /\ _ =>
           exists (emits evs0 (with_random_calls (S (random_calls w0)) w0));
           destruct (Hearly evs0) as (H1 & H2 & H3 & H4)
       end;
       (split; [ | now repeat split ]);
       unfold trial_body.
  - erewrite run_bind_raise; [ reflexivity | ].
    unfold cue_phases. rewrite run_baseline.
    now erewrite run_bind_raise by (now apply run_getattr_missing).
  - erewrite run_bind_raise; [ reflexivity | ].
    unfold cue_phases. rewrite run_baseline. run_with run_getattr.
    now erewrite run_bind_raise by (now apply run_getattr_missing).
  - run_with run_cue_phases.
    erewrite run_bind_raise; [ reflexivity | ].
    unfold select_target.
    now erewrite run_bind_raise by (now apply run_getattr_missing).
  - run_with run_cue_phases.
    erewrite run_bind_raise; [ reflexivity | ].
    unfold select_target. run_with run_getattr.
    destruct (Py.eq_str ad "left");
      now erewrite run_bind_raise by (now apply run_getattr_missing).
  - run_with run_cue_phases. run_with run_select_target.
    erewrite run_bind_raise; [ reflexivity | ].
    unfold display_target.
    now erewrite run_bind_raise by (now apply run_getattr_missing).
  - destruct Hf as [Hcu Hcd Had Hfc Htp].
    run_with run_cue_phases. run_with run_select_target.
    erewrite run_bind_raise; [ reflexivity | ].
    eapply run_display_target_unbound; [ eassumption | exact Hp ].
  - exists (world_at_quit w (target_of ad fc) p (quit_events w cu cd (target_of ad fc) p)).
    split; [ now apply run_trial_body_quit with tp | ].
    pose proof (target_of_is_arrows ad fc) as Ha.
    destruct w. cbn. repeat split.
    intros s Hs. destruct (target_of ad fc); try discriminate Ha;
      destruct s; try discriminate Hs; reflexivity.
Qed.

Lemma failure_quiet trial w e evs :
  failure trial w e evs ->
  rows_added evs = [] /\ exists rest, evs = baseline_events w ++ rest.
Proof.
  intros Hfail.
  destruct Hfail; unfold quit_events, cue_events;
    rewrite ?rows_added_app, ?rows_added_baseline, ?rows_added_display,
      ?rows_added_target;
    (split; [ reflexivity | ]).
  1-2: exists []; now rewrite app_nil_r.
  1-4: eexists; reflexivity.
  eexists. rewrite <- !app_assoc. reflexivity.
Qed.

(** ** The calls and rows of one trial *)

Lemma skipn_length_app {A} (l l' : list A) : skipn (List.length l) (l ++ l') = l'.
Proof. induction l as [ | a l IH ]; [ reflexivity | exact IH ]. Qed.

Lemma skipn_length {A} (l : list A) : skipn (List.length l) l = [].
Proof. induction l as [ | a l IH ]; [ reflexivity | exact IH ]. Qed.

Lemma log_world_after w target p evs row :
  log (world_after w target p evs row) = log w ++ evs.
Proof. destruct w; reflexivity. Qed.

Lemma data_world_after w target p evs row :
  data (world_after w target p evs row) = data w ++ [row].
Proof. destruct w; reflexivity. Qed.

(** A trial whose fields exist, whose target position is known and whose
    response wait returns. *)
Section CompletedTrial.

Variables (trial : Trial) (w : World).
Variables (cu cd ad fc tp : Py.value) (p : Position).
Hypothesis fields : has_fields trial cu cd ad fc tp.
Hypothesis positioned : target_pos_after w tp = Some p.
Hypothesis answered : answer w <> Quit.

Lemma events_of_complete : events_of trial w = trial_events w trial cu cd ad fc p.
Proof.
  unfold events_of.
  rewrite (run_trial_body trial w cu cd ad fc tp p fields positioned answered).
  cbn [snd]. rewrite log_world_after. apply skipn_length_app.
Qed.

Lemma rows_of_complete : rows_of trial w = [result_row trial (response w)].
Proof.
  unfold rows_of.
  rewrite (run_trial_body trial w cu cd ad fc tp p fields positioned answered).
  cbn [snd]. rewrite data_world_after. apply skipn_length_app.
Qed.

End CompletedTrial.

Lemma events_of_failure trial w e evs :
  failure trial w e evs ->
  fst (trial_body trial w) = Raise e
  /\ events_of trial w = evs
  /\ rows_of trial w = [].
Proof.
  intros Hfail.
  destruct (run_failure trial w e evs Hfail) as (w' & Hrun & Hlog & Hdata & _).
  unfold events_of, rows_of. rewrite Hrun. cbn [fst snd].
  rewrite Hlog, Hdata, skipn_length_app, skipn_length. auto.
Qed.

(** The calls of a trial up to the opening of its response window are
    the same whether the wait then returns or the participant quits. *)
Lemma events_until_window trial w cu cd ad fc tp p :
  has_fields trial cu cd ad fc tp ->
  target_pos_after w tp = Some p ->
  exists rest,
    events_of trial w
    = cue_events w cu cd ++ target_events w (target_of ad fc) p
      ++ EKeyboardWait None MAX_RESPONSE_DURATION (answer w) :: rest.
Proof.
  intros Hf Hp.
  destruct (answer w) as [key rt | | elapsed | ] eqn:Hq.
  1-3: rewrite (events_of_complete trial w cu cd ad fc tp p Hf Hp)
         by (rewrite Hq; discriminate);
       unfold trial_events, response_events; rewrite Hq;
       eexists; reflexivity.
  destruct (events_of_failure trial w _ _
              (quit_at_response trial w cu cd ad fc tp p Hf Hp Hq)) as (_ & -> & _).
  exists []. reflexivity.
Qed.

Lemma reaction_time_cell_row trial kr :
  reaction_time_cell (result_row trial kr) = Py.of_option (adjust_rt (snd kr)).
Proof.
  unfold reaction_time_cell, result_row.
  change [Py.of_option (fst kr); Py.of_option (adjust_rt (snd kr))]
    with ([Py.of_option (fst kr)] ++ [Py.of_option (adjust_rt (snd kr))]).
  rewrite app_assoc. apply last_last.
Qed.

Lemma response_key_cell_row trial kr :
  response_key_cell (result_row trial kr) = Py.of_option (fst kr).
Proof.
  unfold response_key_cell, result_row.
  change [Py.of_option (fst kr); Py.of_option (adjust_rt (snd kr))]
    with ([Py.of_option (fst kr)] ++ [Py.of_option (adjust_rt (snd kr))]).
  rewrite app_assoc, removelast_last. apply last_last.
Qed.

Lemma keyboard_wait_in_events w trial cu cd ad fc p :
  In (EKeyboardWait None MAX_RESPONSE_DURATION (answer w))
     (trial_events w trial cu cd ad fc p).
Proof.
  unfold trial_events, response_events.
  apply in_or_app; right. apply in_or_app; right.
  apply in_or_app; left. now left.
Qed.

(** ** Reaction time *)

(** C1: when the keyboard wait captures a key, the reaction time written
    to the row is the time the wait measured plus TARGET_DISPLAY_DURATION;
    when it captures none, the reaction time written is None. *)
Theorem reaction_time_adjusted trial w cu cd ad fc tp p :
  has_fields trial cu cd ad fc tp ->
  target_pos_after w tp = Some p ->
  answer w <> Quit ->
  exists row,
    rows_of trial w = [row]
    /\ In (EKeyboardWait None MAX_RESPONSE_DURATION (answer w)) (events_of trial w)
    /\ response w = returned (answer w)
    /\ (forall k t, response w = (Some k, Some t) ->
          reaction_time_cell row = Py.VInt (t + TARGET_DISPLAY_DURATION))
    /\ (fst (response w) = None -> reaction_time_cell row = Py.VNone).
Proof.
  intros Hf Hp Hq. exists (result_row trial (response w)).
  split; [ now apply rows_of_complete with cu cd ad fc tp p | ].
  split.
  { rewrite (events_of_complete trial w cu cd ad fc tp p Hf Hp Hq).
    apply keyboard_wait_in_events. }
  split; [ reflexivity | ].
  rewrite reaction_time_cell_row. split.
  - intros k t ->. reflexivity.
  - unfold response. destruct (answer w); cbn; [ discriminate | reflexivity.. ].
Qed.

Lemma reaction_time_adjusted_witness :
  exists row,
    rows_of (sample_trial false false "left" "cong" "up") (sample_world 0 (Pressed 102 350))
    = [row]
    /\ In (EKeyboardWait None MAX_RESPONSE_DURATION
             (answer (sample_world 0 (Pressed 102 350))))
          (events_of (sample_trial false false "left" "cong" "up")
             (sample_world 0 (Pressed 102 350)))
    /\ response (sample_world 0 (Pressed 102 350))
       = returned (answer (sample_world 0 (Pressed 102 350)))
    /\ (forall k t, response (sample_world 0 (Pressed 102 350)) = (Some k, Some t) ->
          reaction_time_cell row = Py.VInt (t + TARGET_DISPLAY_DURATION))
    /\ (fst (response (sample_world 0 (Pressed 102 350))) = None ->
          reaction_time_cell row = Py.VNone).
Proof.
  apply (reaction_time_adjusted (sample_trial false false "left" "cong" "up")
           (sample_world 0 (Pressed 102 350))
           (Py.VBool false) (Py.VBool false) (Py.VStr "left") (Py.VStr "cong")
           (Py.VStr "up") (0, 70)).
  - constructor; reflexivity.
  - reflexivity.
  - discriminate.
Defined.

(** ** The response window *)

(** C2, as the code has it: the keyboard wait issued after the target
    phase is given MAX_RESPONSE_DURATION in full, not what is left of it
    after the target display, so that its deadline falls
    TARGET_DISPLAY_DURATION + MAX_RESPONSE_DURATION (1900 ms) after target
    onset; a key that the wait returns at time t is reported at
    t + TARGET_DISPLAY_DURATION, whatever t is. *)
Theorem response_window_full_budget trial w cu cd ad fc tp p :
  has_fields trial cu cd ad fc tp ->
  target_pos_after w tp = Some p ->
  keyboard_budget (events_of trial w) = Some MAX_RESPONSE_DURATION
  /\ deadline_from_onset (events_of trial w)
     = Some (TARGET_DISPLAY_DURATION + MAX_RESPONSE_DURATION)
  /\ (forall k t, answer w = Pressed k t ->
        exists row, rows_of trial w = [row]
                    /\ reaction_time_cell row = Py.VInt (t + TARGET_DISPLAY_DURATION)).
Proof.
  intros Hf Hp.
  split; [ | split ].
  - destruct (events_until_window trial w cu cd ad fc tp p Hf Hp) as [rest ->].
    unfold cue_events, baseline_events, target_events, display_events.
    destruct (Py.truthy cu), (Py.truthy cd); reflexivity.
  - destruct (events_until_window trial w cu cd ad fc tp p Hf Hp) as [rest ->].
    pose proof (target_of_is_arrows ad fc) as Ha.
    unfold cue_events, baseline_events, target_events, display_events.
    destruct (Py.truthy cu), (Py.truthy cd);
      destruct (target_of ad fc); try discriminate Ha; reflexivity.
  - intros k t Hq. exists (result_row trial (response w)).
    rewrite (rows_of_complete trial w cu cd ad fc tp p Hf Hp) by (rewrite Hq; discriminate).
    split; [ reflexivity | ].
    rewrite reaction_time_cell_row. unfold response. now rewrite Hq.
Qed.

Lemma response_window_full_budget_witness :
  keyboard_budget (events_of (sample_trial false false "left" "cong" "up")
                     (sample_world 0 (Pressed 102 350)))
  = Some MAX_RESPONSE_DURATION
  /\ deadline_from_onset (events_of (sample_trial false false "left" "cong" "up")
                            (sample_world 0 (Pressed 102 350)))
     = Some (TARGET_DISPLAY_DURATION + MAX_RESPONSE_DURATION)
  /\ (forall k t, answer (sample_world 0 (Pressed 102 350)) = Pressed k t ->
        exists row,
          rows_of (sample_trial false false "left" "cong" "up")
            (sample_world 0 (Pressed 102 350)) = [row]
          /\ reaction_time_cell row = Py.VInt (t + TARGET_DISPLAY_DURATION)).
Proof.
  apply (response_window_full_budget (sample_trial false false "left" "cong" "up")
           (sample_world 0 (Pressed 102 350))
           (Py.VBool false) (Py.VBool false) (Py.VStr "left") (Py.VStr "cong")
           (Py.VStr "up") (0, 70)).
  - constructor; reflexivity.
  - reflexivity.
Defined.

(** C2 fails as stated: the wait is not given
    MAX_RESPONSE_DURATION - TARGET_DISPLAY_DURATION, its deadline is
    1900 ms after target onset, and a key that the wait returns 1600 ms
    after its start, 1800 ms after target onset, is recorded. *)
Lemma response_window_exceeds_budget :
  let trial := sample_trial false false "left" "cong" "up" in
  let w := sample_world 0 (Pressed 102 1600) in
  keyboard_budget (events_of trial w)
  <> Some (MAX_RESPONSE_DURATION - TARGET_DISPLAY_DURATION)
  /\ (exists d, deadline_from_onset (events_of trial w) = Some d
                /\ MAX_RESPONSE_DURATION < d)
  /\ (exists row, rows_of trial w = [row]
                  /\ response_key_cell row = Py.VInt 102
                  /\ reaction_time_cell row = Py.VInt 1800
                  /\ MAX_RESPONSE_DURATION < 1800).
Proof.
  split; [ | split ].
  - vm_compute. discriminate.
  - exists 1900. split; reflexivity.
  - eexists. split; [ vm_compute; reflexivity | ].
    repeat split; reflexivity.
Qed.

(** ** Keys outside the two response keys *)

(** C3, as the code has it: the response wait is called without a key
    filter; whatever key it returns, a response key or not, is written to
    the row as the response key, with its adjusted reaction time; a
    returned key that is not a response key gets the negative feedback. *)
Theorem any_key_is_recorded trial w cu cd ad fc tp p k t :
  has_fields trial cu cd ad fc tp ->
  target_pos_after w tp = Some p ->
  answer w = Pressed k t ->
  In (EKeyboardWait None MAX_RESPONSE_DURATION (Pressed k t)) (events_of trial w)
  /\ rows_of trial w
     = [values trial ++ [Py.VInt k; Py.VInt (t + TARGET_DISPLAY_DURATION)]]
  /\ (recognized k = false ->
      exists before,
        events_of trial w
        = before ++ display_events (position w) cross_red false false
                 ++ [EClockWait (Py.Int 400)]).
Proof.
  intros Hf Hp Ha.
  assert (Hq : answer w <> Quit) by (rewrite Ha; discriminate).
  assert (Hr : response w = (Some k, Some t)) by (unfold response; now rewrite Ha).
  rewrite (events_of_complete trial w cu cd ad fc tp p Hf Hp Hq).
  rewrite (rows_of_complete trial w cu cd ad fc tp p Hf Hp Hq).
  split; [ | split ].
  - rewrite <- Ha. apply keyboard_wait_in_events.
  - unfold result_row. rewrite Hr. reflexivity.
  - intros Hk'. unfold trial_events.
    exists (cue_events w cu cd
            ++ target_events w (target_of ad fc) p ++ response_events w trial).
    rewrite <- !app_assoc. do 3 f_equal.
    rewrite Hr. cbn [fst]. unfold feedback_events, correct_response.
    unfold recognized, bound_direction in Hk'. cbn [Py.eq_key].
    destruct (k =? LEFT_RESPONSE_KEY); [ discriminate | ].
    destruct (k =? RIGHT_RESPONSE_KEY); [ discriminate | ].
    reflexivity.
Qed.

Lemma any_key_is_recorded_witness :
  In (EKeyboardWait None MAX_RESPONSE_DURATION (Pressed 97 300))
     (events_of (sample_trial false false "left" "cong" "up")
        (sample_world 0 (Pressed 97 300)))
  /\ rows_of (sample_trial false false "left" "cong" "up")
       (sample_world 0 (Pressed 97 300))
     = [values (sample_trial false false "left" "cong" "up")
        ++ [Py.VInt 97; Py.VInt (300 + TARGET_DISPLAY_DURATION)]]
  /\ (recognized 97 = false ->
      exists before,
        events_of (sample_trial false false "left" "cong" "up")
          (sample_world 0 (Pressed 97 300))
        = before
          ++ display_events (position (sample_world 0 (Pressed 97 300)))
               cross_red false false
          ++ [EClockWait (Py.Int 400)]).
Proof.
  apply (any_key_is_recorded (sample_trial false false "left" "cong" "up")
           (sample_world 0 (Pressed 97 300))
           (Py.VBool false) (Py.VBool false) (Py.VStr "left") (Py.VStr "cong")
           (Py.VStr "up") (0, 70) 97 300).
  - constructor; reflexivity.
  - reflexivity.
  - reflexivity.
Defined.

(** C3 fails as stated: key 97 ('a') is not a response key; when the
    wait, called without a key filter, returns it, it is written to the
    row as the response key with a reaction time, and the row differs
    from the row of a trial in which no key was returned. *)
Lemma unrecognized_key_ends_window :
  let trial := sample_trial false false "left" "cong" "up" in
  let w := sample_world 0 (Pressed 97 300) in
  recognized 97 = false
  /\ In (EKeyboardWait None MAX_RESPONSE_DURATION (Pressed 97 300)) (events_of trial w)
  /\ (exists row, rows_of trial w = [row]
                  /\ response_key_cell row = Py.VInt 97
                  /\ reaction_time_cell row = Py.VInt 500)
  /\ rows_of trial w <> rows_of trial (sample_world 0 NoKey).
Proof.
  split; [ reflexivity | ]. split; [ | split ].
  - vm_compute. repeat (first [ left; reflexivity | right ]).
  - eexists. split; [ vm_compute; reflexivity | ]. split; reflexivity.
  - vm_compute. discriminate.
Qed.

(** ** Exceptions *)

(** C4, as the code has it: nothing is validated before the phases begin.
    A trial whose five fields exist and whose target_position is 'up' or
    'down' runs to its end and writes its row, whatever its
    arrow_direction and flanker_congruency hold, unless the participant
    quits at the response window: then, and only then, it raises, with the
    SystemExit of the keyboard wait, and writes no row. *)
Theorem valid_trial_raises_only_on_quit trial w cu cd ad fc tp :
  has_fields trial cu cd ad fc tp ->
  tp = Py.VStr "up" \/ tp = Py.VStr "down" ->
  (answer w <> Quit ->
   fst (trial_body trial w) = Ret tt /\ exists row, rows_of trial w = [row])
  /\ (answer w = Quit ->
      fst (trial_body trial w) = Raise Py.SystemExit /\ rows_of trial w = []).
Proof.
  intros Hf Htp.
  assert (Hp : exists p, target_pos_after w tp = Some p).
  { unfold target_pos_after. destruct Htp as [-> | ->]; cbn; eauto. }
  destruct Hp as [p Hp]. split; intros Hq.
  - rewrite (run_trial_body trial w cu cd ad fc tp p Hf Hp Hq).
    split; [ reflexivity | ].
    exists (result_row trial (response w)).
    now apply rows_of_complete with cu cd ad fc tp p.
  - destruct (events_of_failure trial w _ _
                (quit_at_response trial w cu cd ad fc tp p Hf Hp Hq)) as (Hr & _ & Hrows).
    auto.
Qed.

Lemma valid_trial_raises_only_on_quit_witness :
  (fst (trial_body (sample_trial true false "sideways" "cong" "down")
          (sample_world 0 (Pressed 106 420))) = Ret tt
   /\ exists row,
        rows_of (sample_trial true false "sideways" "cong" "down")
          (sample_world 0 (Pressed 106 420)) = [row])
  /\ (fst (trial_body (sample_trial true false "sideways" "cong" "down")
             (sample_world 0 Quit)) = Raise Py.SystemExit
      /\ rows_of (sample_trial true false "sideways" "cong" "down")
           (sample_world 0 Quit) = []).
Proof.
  split.
  - apply (valid_trial_raises_only_on_quit
             (sample_trial true false "sideways" "cong" "down")
             (sample_world 0 (Pressed 106 420))
             (Py.VBool true) (Py.VBool false) (Py.VStr "sideways") (Py.VStr "cong")
             (Py.VStr "down")).
    + constructor; reflexivity.
    + right; reflexivity.
    + discriminate.
  - apply (valid_trial_raises_only_on_quit
             (sample_trial true false "sideways" "cong" "down")
             (sample_world 0 Quit)
             (Py.VBool true) (Py.VBool false) (Py.VStr "sideways") (Py.VStr "cong")
             (Py.VStr "down")).
    + constructor; reflexivity.
    + right; reflexivity.
    + reflexivity.
Defined.

(** C4 fails as stated: a trial with an unrecognized arrow_direction is
    not rejected but runs through all its phases and writes its row; a
    first trial with an unrecognized target_position raises a NameError
    once the baseline, the cue and the cue-target interval have been
    shown; and a valid trial raises SystemExit when the participant quits
    at the response window. *)
Lemma invalid_trial_not_rejected :
  (fst (trial_body (sample_trial true false "sideways" "cong" "down")
          (sample_world 0 (Pressed 106 420))) = Ret tt
   /\ rows_of (sample_trial true false "sideways" "cong" "down")
        (sample_world 0 (Pressed 106 420))
      = [[Py.VBool true; Py.VBool false; Py.VStr "sideways"; Py.VStr "cong";
          Py.VStr "down"; Py.VInt 106; Py.VInt 620]])
  /\ (fst (trial_body (sample_trial true false "left" "cong" "middle")
             (sample_world 0 (Pressed 102 420)))
      = Raise (Py.NameError "target_pos")
      /\ shown_in_phases (events_of (sample_trial true false "left" "cong" "middle")
                            (sample_world 0 (Pressed 102 420)))
         = [Some (Fixation neutral); Some FixationCueTop; Some (Fixation neutral)])
  /\ fst (trial_body (sample_trial true false "left" "cong" "up") (sample_world 0 Quit))
     = Raise Py.SystemExit.
Proof. repeat split; vm_compute; reflexivity. Qed.

(** ** The data row and the feedback *)

(** The loop body is its first part, up to the row, followed by the
    feedback. *)
Lemma trial_body_until_row trial w :
  trial_body trial w = (key <- until_row trial ;; feedback trial key) w.
Proof.
  unfold trial_body, until_row, bind.
  destruct (cue_phases trial w) as [[[] | e] w1]; [ | reflexivity ].
  destruct (select_target trial w1) as [[target | e] w2]; [ | reflexivity ].
  destruct (display_target trial target w2) as [[[] | e] w3]; [ | reflexivity ].
  destruct (collect_response trial w3) as [[key | e] w4]; reflexivity.
Qed.

Lemma run_until_row trial w cu cd ad fc tp p :
  has_fields trial cu cd ad fc tp ->
  target_pos_after w tp = Some p ->
  answer w <> Quit ->
  exists w',
    until_row trial w = (Ret (fst (response w)), w')
    /\ data w' = data w ++ [result_row trial (response w)].
Proof.
  intros Hf Hp Hq. unfold until_row.
  rewrite (run_until_window trial w cu cd ad fc tp p _ Hf Hp).
  rewrite run_collect_response by exact Hq.
  eexists. split; [ reflexivity | ].
  destruct w; reflexivity.
Qed.

(** A trial that has a reason to fail stops in lines 169-204, before the
    feedback block. *)
Lemma failure_before_feedback trial w e evs :
  failure trial w e evs -> fst (until_row trial w) = Raise e.
Proof.
  intros Hfail.
  destruct Hfail as [ Hcu | cu Hcu Hcd | cu cd Hcu Hcd Had | cu cd ad Hcu Hcd Had Hfc
                    | cu cd ad fc Hcu Hcd Had Hfc Htp | cu cd ad fc tp Hf Hp
                    | cu cd ad fc tp p Hf Hp Hq ];
    unfold until_row.
  - erewrite run_bind_raise; [ reflexivity | ].
    unfold cue_phases. rewrite run_baseline.
    now erewrite run_bind_raise by (now apply run_getattr_missing).
  - erewrite run_bind_raise; [ reflexivity | ].
    unfold cue_phases. rewrite run_baseline. run_with run_getattr.
    now erewrite run_bind_raise by (now apply run_getattr_missing).
  - run_with run_cue_phases.
    erewrite run_bind_raise; [ reflexivity | ].
    unfold select_target.
    now erewrite run_bind_raise by (now apply run_getattr_missing).
  - run_with run_cue_phases.
    erewrite run_bind_raise; [ reflexivity | ].
    unfold select_target. run_with run_getattr.
    destruct (Py.eq_str ad "left");
      now erewrite run_bind_raise by (now apply run_getattr_missing).
  - run_with run_cue_phases. run_with run_select_target.
    erewrite run_bind_raise; [ reflexivity | ].
    unfold display_target.
    now erewrite run_bind_raise by (now apply run_getattr_missing).
  - destruct Hf as [Hcu Hcd Had Hfc Htp].
    run_with run_cue_phases. run_with run_select_target.
    erewrite run_bind_raise; [ reflexivity | ].
    eapply run_display_target_unbound; [ eassumption | exact Hp ].
  - rewrite (run_until_window trial w cu cd ad fc tp p _ Hf Hp).
    now rewrite run_collect_response_quit.
Qed.

(** C5, as the code has it: the row is written by line 204, when the
    response wait has returned and before the feedback is drawn.  The
    loop body is lines 169-204 followed by the feedback block.  When
    lines 169-204 return, the row is in the data file before the feedback
    block begins; the trial then shows the feedback for 400 ms and has
    written exactly that row.  When they raise (a missing field, the
    unassigned target_pos, the SystemExit of a quit at the response
    wait), the trial raises the same exception and has written no row. *)
Theorem row_written_before_feedback trial w :
  trial_body trial w = (key <- until_row trial ;; feedback trial key) w
  /\ match fst (until_row trial w) with
     | Ret _ =>
         exists before row (c : bool),
           data (snd (until_row trial w)) = data w ++ [row]
           /\ fst (trial_body trial w) = Ret tt
           /\ events_of trial w
              = (before ++ [EKeyboardWait None MAX_RESPONSE_DURATION (answer w)])
                ++ [EDataAdd row]
                ++ (display_events (position w) (if c then cross_green else cross_red)
                      false false
                    ++ [EClockWait (Py.Int 400)])
           /\ rows_added before = []
           /\ rows_of trial w = [row]
     | Raise e =>
         fst (trial_body trial w) = Raise e
         /\ failure trial w e (events_of trial w)
         /\ rows_of trial w = []
         /\ rows_added (events_of trial w) = []
     end.
Proof.
  split; [ apply trial_body_until_row | ].
  destruct (complete_or_failure trial w)
    as [(cu & cd & ad & fc & tp & p & Hf & Hp & Hq) | (e & evs & Hfail)].
  - destruct (run_until_row trial w cu cd ad fc tp p Hf Hp Hq) as (w' & -> & Hdata).
    cbn [fst snd].
    rewrite (run_trial_body trial w cu cd ad fc tp p Hf Hp Hq). cbn [fst].
    exists (cue_events w cu cd ++ target_events w (target_of ad fc) p),
           (result_row trial (response w)),
           (correct_response ad (fst (response w))).
    rewrite (events_of_complete trial w cu cd ad fc tp p Hf Hp Hq).
    rewrite (rows_of_complete trial w cu cd ad fc tp p Hf Hp Hq).
    split; [ exact Hdata | ]. split; [ reflexivity | ].
    split; [ | split; [ | reflexivity ] ].
    + unfold trial_events, response_events, feedback_events.
      rewrite <- !app_assoc. reflexivity.
    + now rewrite rows_added_app, rows_added_cue, rows_added_target.
  - rewrite (failure_before_feedback trial w e evs Hfail).
    destruct (events_of_failure trial w e evs Hfail) as (-> & -> & ->).
    destruct (failure_quiet trial w e evs Hfail) as [Hquiet _].
    auto.
Qed.

(** C5 fails as stated: when the row is written, the feedback phase has
    not begun; the trial body without its feedback block has already
    written the row. *)
Lemma row_written_while_feedback_pending :
  let trial := sample_trial false false "left" "cong" "up" in
  let w := sample_world 0 (Pressed 102 350) in
  let row := [Py.VBool false; Py.VBool false; Py.VStr "left"; Py.VStr "cong";
              Py.VStr "up"; Py.VInt 102; Py.VInt 550] in
  (exists before,
     events_of trial w
     = before ++ [EDataAdd row]
       ++ [EPresent cross_green (0, 0) true false;
           EPresent box_top (0, 70) false false;
           EPresent box_bottom (0, -70) false true;
           EClockWait (Py.Int 400)])
  /\ data (snd ((cue_phases trial ;;
                 target <- select_target trial ;;
                 display_target trial target ;;
                 collect_response trial) w))
     = [row].
Proof.
  split.
  - exists (firstn 21 (events_of (sample_trial false false "left" "cong" "up")
                         (sample_world 0 (Pressed 102 350)))).
    vm_compute. reflexivity.
  - vm_compute. reflexivity.
Qed.

Lemma eq_str_true v s : Py.eq_str v s = true -> v = Py.VStr s.
Proof.
  destruct v; cbn; try discriminate.
  intros H. apply String.eqb_eq in H. now subst.
Qed.

Lemma eq_str_false v s : v <> Py.VStr s -> Py.eq_str v s = false.
Proof.
  intros Hne. destruct (Py.eq_str v s) eqn:E; [ | reflexivity ].
  apply eq_str_true in E. contradiction.
Qed.

Lemma eq_key_true key k : Py.eq_key key k = true -> key = Some k.
Proof.
  destruct key as [n | ]; cbn; [ | discriminate ].
  intros H. apply Z.eqb_eq in H. now subst.
Qed.

(** The condition of the feedback branch holds exactly when the key is a
    response key bound to the direction of the arrow. *)
Lemma correct_response_iff ad key :
  correct_response ad key = true
  <-> exists k d, key = Some k /\ bound_direction k = Some d /\ ad = Py.VStr d.
Proof.
  unfold correct_response. split.
  - intros H. apply orb_true_iff in H.
    destruct H as [H | H]; apply andb_true_iff in H; destruct H as [Hk Hd];
      apply eq_key_true in Hk; apply eq_str_true in Hd.
    + exists LEFT_RESPONSE_KEY, "left". auto.
    + exists RIGHT_RESPONSE_KEY, "right". auto.
  - intros (k & d & -> & Hb & ->). unfold bound_direction in Hb. cbn [Py.eq_key].
    destruct (k =? LEFT_RESPONSE_KEY).
    + injection Hb as <-. reflexivity.
    + destruct (k =? RIGHT_RESPONSE_KEY); [ | discriminate ].
      injection Hb as <-. reflexivity.
Qed.

Lemma feedback_shown_complete w trial cu cd ad fc p :
  feedback_shown (trial_events w trial cu cd ad fc p)
  = Some (Fixation (if correct_response ad (fst (response w)) then positive else negative)).
Proof.
  pose proof (target_of_is_arrows ad fc) as Ha.
  unfold trial_events, cue_events, baseline_events, target_events, response_events,
    feedback_events, display_events.
  destruct (Py.truthy cu), (Py.truthy cd);
    destruct (target_of ad fc); try discriminate Ha;
    destruct (correct_response ad (fst (response w))); reflexivity.
Qed.

(** C6: the feedback is positive exactly when a response key was pressed
    whose direction is the trial's arrow_direction; it is negative when
    the key pressed is bound to the other direction, and when no key
    arrived. *)
Theorem feedback_matches_response trial w cu cd ad fc tp p :
  has_fields trial cu cd ad fc tp ->
  target_pos_after w tp = Some p ->
  answer w <> Quit ->
  (feedback_shown (events_of trial w) = Some (Fixation positive)
   \/ feedback_shown (events_of trial w) = Some (Fixation negative))
  /\ (feedback_shown (events_of trial w) = Some (Fixation positive)
      <-> exists k d, fst (response w) = Some k
                      /\ bound_direction k = Some d /\ ad = Py.VStr d)
  /\ (forall k d, fst (response w) = Some k -> bound_direction k = Some d ->
        ad <> Py.VStr d ->
        feedback_shown (events_of trial w) = Some (Fixation negative))
  /\ (fst (response w) = None ->
      feedback_shown (events_of trial w) = Some (Fixation negative)).
Proof.
  intros Hf Hp Hq.
  rewrite (events_of_complete trial w cu cd ad fc tp p Hf Hp Hq), feedback_shown_complete.
  pose proof (correct_response_iff ad (fst (response w))) as Hiff.
  destruct (correct_response ad (fst (response w))).
  - destruct Hiff as [Hex _]. specialize (Hex eq_refl).
    destruct Hex as (k & d & Hk & Hb & Hd).
    split; [ now left | ]. split; [ | split ].
    + split; [ intros _; now exists k, d | reflexivity ].
    + intros k' d' Hk' Hb' Hd'. rewrite Hk in Hk'. injection Hk' as <-.
      rewrite Hb in Hb'. injection Hb' as <-. contradiction.
    + intros Hn. rewrite Hk in Hn. discriminate.
  - split; [ now right | ]. split; [ | split ].
    + split; [ discriminate | ].
      intros Hex. apply Hiff in Hex. discriminate.
    + reflexivity.
    + reflexivity.
Qed.

Lemma feedback_matches_response_witness :
  (feedback_shown (events_of (sample_trial false false "right" "incong" "down")
                     (sample_world 0 (Pressed 102 350)))
   = Some (Fixation positive)
   \/ feedback_shown (events_of (sample_trial false false "right" "incong" "down")
                        (sample_world 0 (Pressed 102 350)))
      = Some (Fixation negative))
  /\ (feedback_shown (events_of (sample_trial false false "right" "incong" "down")
                        (sample_world 0 (Pressed 102 350)))
      = Some (Fixation positive)
      <-> exists k d, fst (response (sample_world 0 (Pressed 102 350))) = Some k
                      /\ bound_direction k = Some d /\ Py.VStr "right" = Py.VStr d)
  /\ (forall k d, fst (response (sample_world 0 (Pressed 102 350))) = Some k ->
        bound_direction k = Some d ->
        Py.VStr "right" <> Py.VStr d ->
        feedback_shown (events_of (sample_trial false false "right" "incong" "down")
                          (sample_world 0 (Pressed 102 350)))
        = Some (Fixation negative))
  /\ (fst (response (sample_world 0 (Pressed 102 350))) = None ->
      feedback_shown (events_of (sample_trial false false "right" "incong" "down")
                        (sample_world 0 (Pressed 102 350)))
      = Some (Fixation negative)).
Proof.
  apply (feedback_matches_response (sample_trial false false "right" "incong" "down")
           (sample_world 0 (Pressed 102 350))
           (Py.VBool false) (Py.VBool false) (Py.VStr "right") (Py.VStr "incong")
           (Py.VStr "down") (0, -70)).
  - constructor; reflexivity.
  - reflexivity.
  - discriminate.
Defined.

(** ** The row echoes the trial *)

Lemma values_combine (names : list string) (r : list Py.value) :
  List.length r = List.length names -> values (combine names r) = r.
Proof.
  revert r. induction names as [ | n names IH ]; intros [ | v r ] Hlen;
    try discriminate; [ reflexivity | ].
  cbn in *. f_equal. apply IH. now injection Hlen.
Qed.

Lemma combine_app {A B} (l1 l2 : list A) (r1 r2 : list B) :
  List.length r1 = List.length l1 ->
  combine (l1 ++ l2) (r1 ++ r2) = combine l1 r1 ++ combine l2 r2.
Proof.
  revert r1. induction l1 as [ | a l1 IH ]; intros [ | b r1 ] Hlen;
    try discriminate; [ reflexivity | ].
  cbn in *. f_equal. apply IH. now injection Hlen.
Qed.

(** The names declared by line 156. *)
Lemma run_trials_declares_names df w :
  exists w',
    add_data_variable_names (columns df ++ ["response_key"; "reaction_time"]) w = (Ret tt, w')
    /\ data_variable_names w'
       = data_variable_names w ++ columns df ++ ["response_key"; "reaction_time"]
    /\ run_trials df w = for_each (itertuples df) w'.
Proof. eexists. repeat split. Qed.

(** C7: the row of a trial holds the cells of the trial, in the order of
    the columns of the trial table, then the response key and the reaction
    time; paired with the declared names (the columns, then response_key
    and reaction_time) it gives back the named fields of the trial. *)
Theorem row_echoes_trial df r w cu cd ad fc tp p :
  List.length r = List.length (columns df) ->
  has_fields (combine (columns df) r) cu cd ad fc tp ->
  target_pos_after w tp = Some p ->
  answer w <> Quit ->
  exists key rt,
    rows_of (combine (columns df) r) w = [r ++ [key; rt]]
    /\ key = Py.of_option (fst (response w))
    /\ rt = Py.of_option (adjust_rt (snd (response w)))
    /\ combine (columns df ++ ["response_key"; "reaction_time"]) (r ++ [key; rt])
       = combine (columns df) r ++ [("response_key", key); ("reaction_time", rt)].
Proof.
  intros Hlen Hf Hp Hq.
  exists (Py.of_option (fst (response w))), (Py.of_option (adjust_rt (snd (response w)))).
  rewrite (rows_of_complete _ w cu cd ad fc tp p Hf Hp Hq).
  unfold result_row. rewrite (values_combine _ _ Hlen).
  repeat split. now rewrite combine_app.
Qed.

Lemma row_echoes_trial_witness :
  exists key rt,
    rows_of (combine ["block"; "cue_up"; "cue_down"; "arrow_direction";
                      "flanker_congruency"; "target_position"]
               [Py.VInt 2; Py.VBool true; Py.VBool true; Py.VStr "right";
                Py.VStr "cong"; Py.VStr "down"])
      (sample_world 0 (Pressed 106 512))
    = [[Py.VInt 2; Py.VBool true; Py.VBool true; Py.VStr "right";
        Py.VStr "cong"; Py.VStr "down"] ++ [key; rt]]
    /\ key = Py.of_option (fst (response (sample_world 0 (Pressed 106 512))))
    /\ rt = Py.of_option (adjust_rt (snd (response (sample_world 0 (Pressed 106 512)))))
    /\ combine (["block"; "cue_up"; "cue_down"; "arrow_direction";
                 "flanker_congruency"; "target_position"]
                ++ ["response_key"; "reaction_time"])
         ([Py.VInt 2; Py.VBool true; Py.VBool true; Py.VStr "right";
           Py.VStr "cong"; Py.VStr "down"] ++ [key; rt])
       = combine ["block"; "cue_up"; "cue_down"; "arrow_direction";
                  "flanker_congruency"; "target_position"]
           [Py.VInt 2; Py.VBool true; Py.VBool true; Py.VStr "right";
            Py.VStr "cong"; Py.VStr "down"]
         ++ [("response_key", key); ("reaction_time", rt)].
Proof.
  apply (row_echoes_trial
           {| columns := ["block"; "cue_up"; "cue_down"; "arrow_direction";
                          "flanker_congruency"; "target_position"];
              rows := [[Py.VInt 2; Py.VBool true; Py.VBool true; Py.VStr "right";
                        Py.VStr "cong"; Py.VStr "down"]] |}
           [Py.VInt 2; Py.VBool true; Py.VBool true; Py.VStr "right";
            Py.VStr "cong"; Py.VStr "down"]
           (sample_world 0 (Pressed 106 512))
           (Py.VBool true) (Py.VBool true) (Py.VStr "right") (Py.VStr "cong")
           (Py.VStr "down") (0, -70)).
  - reflexivity.
  - constructor; reflexivity.
  - reflexivity.
  - discriminate.
Defined.

(** ** The baseline *)

Lemma machine_agrees_with_rounding :
  forallb (fun bits => PrimFloat.eqb (Float64.to_prim (baseline_duration bits))
                         (machine_baseline bits))
    [0; 1; 2; 3; 77; 2 ^ 40 + 7; 12345678901234; 2 ^ 51 - 1; 2 ^ 52; 2 ^ 52 + 1;
     6004799503160661; 9007199254740881; 2 ^ 53 - 3; 2 ^ 53 - 2; 2 ^ 53 - 1]
  = true.
Proof. vm_compute. reflexivity. Qed.

(** The machine's own doubles give 3500.0 for the largest draw, and the
    double just below 3500 for the draw before it. *)
Lemma machine_baseline_reaches_3500 :
  machine_baseline (2 ^ 53 - 1) = 3500%float
  /\ PrimFloat.ltb (machine_baseline (2 ^ 53 - 2)) 3500 = true.
Proof. split; vm_compute; reflexivity. Qed.

(** C8, as the code has it: every trial begins with the neutral display
    and a wait whose length is computed from the next draw of the random
    source, which the trial consumes; that length is at least 1500 ms and
    at most 3500 ms, the upper bound included. *)
Theorem baseline_jitter_closed_range trial w :
  (exists rest,
     events_of trial w
     = display_events (position w) cross_black false false
       ++ [EClockWait (Py.Float (baseline_duration (random_bits w (random_calls w))))]
       ++ rest)
  /\ random_calls (snd (trial_body trial w)) = S (random_calls w)
  /\ Float64.leb (Float64.of_int 1500)
       (baseline_duration (random_bits w (random_calls w))) = true
  /\ Float64.leb (baseline_duration (random_bits w (random_calls w)))
       (Float64.of_int 3500) = true.
Proof.
  split; [ | split ].
  - destruct (complete_or_failure trial w)
      as [(cu & cd & ad & fc & tp & p & Hf & Hp & Hq) | (e & evs & Hfail)].
    + rewrite (events_of_complete trial w cu cd ad fc tp p Hf Hp Hq).
      unfold trial_events, cue_events, baseline_events.
      eexists. rewrite <- !app_assoc. reflexivity.
    + destruct (events_of_failure trial w e evs Hfail) as (_ & -> & _).
      destruct (failure_quiet trial w e evs Hfail) as [_ [rest ->]].
      unfold baseline_events. exists rest. now rewrite <- !app_assoc.
  - destruct (complete_or_failure trial w)
      as [(cu & cd & ad & fc & tp & p & Hf & Hp & Hq) | (e & evs & Hfail)].
    + rewrite (run_trial_body trial w cu cd ad fc tp p Hf Hp Hq).
      destruct w; reflexivity.
    + destruct (run_failure trial w e evs Hfail) as (w' & -> & _ & _ & Hr & _).
      exact Hr.
  - pose proof (baseline_duration_range (random_bits w (random_calls w))) as [Hlo Hhi].
    unfold Float64.leb. cbn [Float64.ticks Float64.of_int].
    split; apply Z.leb_le; assumption.
Qed.

(** C8 fails as stated: when the 53 random bits are all ones, the double
    computed for the baseline is 3500.0 itself, outside [1500, 3500). *)
Lemma baseline_jitter_reaches_3500 :
  let trial := sample_trial false false "left" "cong" "up" in
  let w := sample_world (2 ^ 53 - 1) NoKey in
  nth 3 (events_of trial w) (EClockWait (Py.Int 0))
  = EClockWait (Py.Float (Float64.of_int 3500))
  /\ Float64.ltb (baseline_duration (random_bits w (random_calls w)))
       (Float64.of_int 3500) = false.
Proof. split; vm_compute; reflexivity. Qed.

(** ** The frames of a trial *)

(** C9, as the code has it: in a trial whose top frame alone is cued,
    the six waits of the trial find on the screen, in this order,
    fixation(neutral), fixation+cueTop, fixation(neutral),
    fixation+target, fixation(neutral), fixation(feedback colour); the
    screen is updated seven times, because [display] puts the neutral
    fixation on the screen before the target is drawn over it. *)
Theorem frames_of_top_cued_trial trial w cu cd ad fc tp p :
  has_fields trial cu cd ad fc tp ->
  Py.truthy cu = true ->
  Py.truthy cd = false ->
  target_pos_after w tp = Some p ->
  answer w <> Quit ->
  shown_in_phases (events_of trial w)
  = map Some
      [Fixation neutral; FixationCueTop; Fixation neutral;
       FixationTarget (target_of ad fc) p; Fixation neutral;
       Fixation (if correct_response ad (fst (response w)) then positive else negative)]
  /\ rendered (events_of trial w)
     = map Some
         [Fixation neutral; FixationCueTop; Fixation neutral; Fixation neutral;
          FixationTarget (target_of ad fc) p; Fixation neutral;
          Fixation (if correct_response ad (fst (response w)) then positive else negative)].
Proof.
  intros Hf Hcu Hcd Hp Hq.
  rewrite (events_of_complete trial w cu cd ad fc tp p Hf Hp Hq).
  pose proof (target_of_is_arrows ad fc) as Ha.
  unfold trial_events, cue_events, baseline_events, target_events, response_events,
    feedback_events, display_events.
  rewrite Hcu, Hcd.
  destruct (target_of ad fc); try discriminate Ha;
    destruct (correct_response ad (fst (response w))); split; reflexivity.
Qed.

Lemma frames_of_top_cued_trial_witness :
  shown_in_phases (events_of (sample_trial true false "left" "cong" "up")
                     (sample_world 0 (Pressed 102 350)))
  = map Some
      [Fixation neutral; FixationCueTop; Fixation neutral;
       FixationTarget (target_of (Py.VStr "left") (Py.VStr "cong")) (0, 70);
       Fixation neutral;
       Fixation (if correct_response (Py.VStr "left")
                      (fst (response (sample_world 0 (Pressed 102 350))))
                 then positive else negative)]
  /\ rendered (events_of (sample_trial true false "left" "cong" "up")
                 (sample_world 0 (Pressed 102 350)))
     = map Some
         [Fixation neutral; FixationCueTop; Fixation neutral; Fixation neutral;
          FixationTarget (target_of (Py.VStr "left") (Py.VStr "cong")) (0, 70);
          Fixation neutral;
          Fixation (if correct_response (Py.VStr "left")
                         (fst (response (sample_world 0 (Pressed 102 350))))
                    then positive else negative)].
Proof.
  apply (frames_of_top_cued_trial (sample_trial true false "left" "cong" "up")
           (sample_world 0 (Pressed 102 350))
           (Py.VBool true) (Py.VBool false) (Py.VStr "left") (Py.VStr "cong")
           (Py.VStr "up") (0, 70)).
  - constructor; reflexivity.
  - reflexivity.
  - reflexivity.
  - reflexivity.
  - discriminate.
Defined.

(** C9 fails as stated: the states put on the screen are seven, with a
    neutral fixation between the cue-target interval and the target. *)
Lemma target_drawn_over_shown_fixation :
  let trial := sample_trial true false "left" "cong" "up" in
  let w := sample_world 0 (Pressed 102 350) in
  rendered (events_of trial w)
  = map Some
      [Fixation neutral; FixationCueTop; Fixation neutral; Fixation neutral;
       FixationTarget arrows_cong_left (0, 70); Fixation neutral; Fixation positive]
  /\ rendered (events_of trial w)
     <> map Some
          [Fixation neutral; FixationCueTop; Fixation neutral;
           FixationTarget arrows_cong_left (0, 70); Fixation neutral; Fixation positive].
Proof. split; vm_compute; [ reflexivity | discriminate ]. Qed.

(** ** Target selection *)

(** C10: selecting the target never raises on the values of
    arrow_direction and flanker_congruency; every arrow_direction other
    than 'left' gives a target whose central arrow points right, every
    flanker_congruency other than 'cong' gives an incongruent target. *)
Theorem target_selection_total trial w ad fc :
  field trial "arrow_direction" = Some ad ->
  field trial "flanker_congruency" = Some fc ->
  select_target trial w = (Ret (target_of ad fc), w)
  /\ is_arrows (target_of ad fc) = true
  /\ (ad <> Py.VStr "left" -> central_arrow (target_of ad fc) = Some ">"%char)
  /\ (fc <> Py.VStr "cong" -> congruent (target_of ad fc) = false)
  /\ (ad <> Py.VStr "left" -> fc <> Py.VStr "cong" ->
      target_of ad fc = arrows_incong_right).
Proof.
  intros Ha Hf.
  split; [ now apply run_select_target | ].
  split; [ apply target_of_is_arrows | ].
  unfold target_of. repeat split.
  - intros Hne. rewrite (eq_str_false _ _ Hne).
    destruct (Py.eq_str fc "cong"); reflexivity.
  - intros Hne. rewrite (eq_str_false _ _ Hne).
    destruct (Py.eq_str ad "left"); reflexivity.
  - intros Hne Hne'. now rewrite (eq_str_false _ _ Hne), (eq_str_false _ _ Hne').
Qed.

Lemma target_selection_total_witness :
  select_target (sample_trial false true "up" "congruent" "down") (sample_world 0 NoKey)
  = (Ret (target_of (Py.VStr "up") (Py.VStr "congruent")), sample_world 0 NoKey)
  /\ is_arrows (target_of (Py.VStr "up") (Py.VStr "congruent")) = true
  /\ (Py.VStr "up" <> Py.VStr "left" ->
      central_arrow (target_of (Py.VStr "up") (Py.VStr "congruent")) = Some ">"%char)
  /\ (Py.VStr "congruent" <> Py.VStr "cong" ->
      congruent (target_of (Py.VStr "up") (Py.VStr "congruent")) = false)
  /\ (Py.VStr "up" <> Py.VStr "left" -> Py.VStr "congruent" <> Py.VStr "cong" ->
      target_of (Py.VStr "up") (Py.VStr "congruent") = arrows_incong_right).
Proof.
  apply (target_selection_total (sample_trial false true "up" "congruent" "down")
           (sample_world 0 NoKey) (Py.VStr "up") (Py.VStr "congruent")).
  - reflexivity.
  - reflexivity.
Defined.

(** ** Some runs *)

(** The left key 350 ms into the window of a left trial: reaction time
    550 ms, positive feedback. *)
Example left_key_on_left_trial :
  let trial := sample_trial false false "left" "cong" "up" in
  let w := sample_world 0 (Pressed LEFT_RESPONSE_KEY 350) in
  rows_of trial w = [values trial ++ [Py.VInt LEFT_RESPONSE_KEY; Py.VInt 550]]
  /\ feedback_shown (events_of trial w) = Some (Fixation positive).
Proof. split; vm_compute; reflexivity. Qed.

(** No key before the deadline: no key and no reaction time in the row,
    negative feedback. *)
Example no_key_on_left_trial :
  let trial := sample_trial false false "left" "cong" "up" in
  let w := sample_world 0 NoKey in
  rows_of trial w = [values trial ++ [Py.VNone; Py.VNone]]
  /\ feedback_shown (events_of trial w) = Some (Fixation negative).
Proof. split; vm_compute; reflexivity. Qed.

(** The left key on a right trial: negative feedback, and the reaction
    time is kept. *)
Example left_key_on_right_trial :
  let trial := sample_trial false false "right" "cong" "up" in
  let w := sample_world 0 (Pressed LEFT_RESPONSE_KEY 350) in
  rows_of trial w = [values trial ++ [Py.VInt LEFT_RESPONSE_KEY; Py.VInt 550]]
  /\ feedback_shown (events_of trial w) = Some (Fixation negative).
Proof. split; vm_compute; reflexivity. Qed.

(** A second trial with an unrecognized target_position reuses the
    position left by the first. *)
Example stale_target_position :
  let first := sample_trial false false "left" "cong" "down" in
  let second := sample_trial false false "left" "cong" "middle" in
  let w := snd (trial_body first (sample_world 0 NoKey)) in
  fst (trial_body second w) = Ret tt
  /\ In (EPresent arrows_cong_left (0, -70) false true) (events_of second w).
Proof.
  split; vm_compute; [ reflexivity | ].
  repeat (first [ left; reflexivity | right ]).
Qed.

(** The quit key pressed 900 ms into the response window and the quit
    declined: the window ends there, the row holds no key and no reaction
    time, and the feedback is negative. *)
Example quit_declined_on_left_trial :
  let trial := sample_trial false false "left" "cong" "up" in
  let w := sample_world 0 (Declined 900) in
  fst (trial_body trial w) = Ret tt
  /\ rows_of trial w = [values trial ++ [Py.VNone; Py.VNone]]
  /\ feedback_shown (events_of trial w) = Some (Fixation negative)
  /\ total_wait (events_of trial w) = (1500 + 100 + 400 + 200 + 900 + 400) * Float64.unit_ticks.
Proof. repeat split; vm_compute; reflexivity. Qed.

(** The participant quits at the response window: the trial ends with
    SystemExit after the target has been shown, and nothing is written. *)
Example quit_on_left_trial :
  let trial := sample_trial false false "left" "cong" "up" in
  let w := sample_world 0 Quit in
  fst (trial_body trial w) = Raise Py.SystemExit
  /\ rows_of trial w = []
  /\ shown_in_phases (events_of trial w)
     = [Some (Fixation neutral); Some (Fixation neutral); Some (Fixation neutral);
        Some (FixationTarget arrows_cong_left (0, 70)); Some (Fixation neutral)].
Proof. repeat split; vm_compute; reflexivity. Qed.

(** * Further properties of the code *)

(** ** [display] *)

Lemma frames_display buffer pos cross a b :
  frames buffer (display_events pos cross a b) = [display_content pos cross a b].
Proof. destruct a, b; reflexivity. Qed.

(** X1: for each of the three cross types, [display] leaves the world as
    it is but for three calls that put exactly one frame on the screen:
    the cross, the top frame and the bottom frame, each cued or not as its
    flag says, whatever had been drawn before; under the black cross that
    frame is the cue state of the two flags. *)
Theorem display_draws_one_frame c cross a b w buffer :
  In (c, cross) fixation_crosses ->
  exists evs,
    display c a b w = (Ret tt, emits evs w)
    /\ List.length evs = 3%nat
    /\ frames buffer evs
       = [display_content (position w) cross (Py.truthy a) (Py.truthy b)]
    /\ (cross = cross_black ->
        map classify (frames buffer evs)
        = [Some (cue_state (Py.truthy a) (Py.truthy b))]).
Proof.
  intros Hin. exists (display_events (position w) cross (Py.truthy a) (Py.truthy b)).
  split; [ now apply run_display | ].
  split; [ reflexivity | ].
  rewrite frames_display. split; [ reflexivity | ].
  intros ->. destruct (Py.truthy a), (Py.truthy b); reflexivity.
Qed.

Lemma display_draws_one_frame_witness :
  exists evs,
    display "neutral" (Py.VInt 1) (Py.VStr "") (sample_world 0 NoKey) = (Ret tt, emits evs (sample_world 0 NoKey))
    /\ List.length evs = 3%nat
    /\ frames [(arrows_cong_left, (0, 70))] evs
       = [display_content (position (sample_world 0 NoKey)) cross_black
            (Py.truthy (Py.VInt 1)) (Py.truthy (Py.VStr ""))]
    /\ (cross_black = cross_black ->
        map classify (frames [(arrows_cong_left, (0, 70))] evs)
        = [Some (cue_state (Py.truthy (Py.VInt 1)) (Py.truthy (Py.VStr "")))]).
Proof.
  apply (display_draws_one_frame "neutral" cross_black (Py.VInt 1) (Py.VStr "")
           (sample_world 0 NoKey) [(arrows_cong_left, (0, 70))]).
  cbn. auto.
Defined.

(** X2: a cross type that is not a key of [fixation_crosses] makes
    [display] raise KeyError before anything is drawn. *)
Theorem display_unknown_cross c a b w :
  c <> "neutral" -> c <> "positive" -> c <> "negative" ->
  display c a b w = (Raise (Py.KeyError c), w).
Proof.
  intros Hn Hp Hg. unfold display, fixation_crosses. cbn [find fst].
  apply not_eq_sym in Hn, Hp, Hg.
  apply String.eqb_neq in Hn, Hp, Hg. rewrite Hn, Hp, Hg. reflexivity.
Qed.

Lemma display_unknown_cross_witness :
  display "green" False_ False_ (sample_world 0 NoKey)
  = (Raise (Py.KeyError "green"), sample_world 0 NoKey).
Proof.
  apply (display_unknown_cross "green" False_ False_ (sample_world 0 NoKey));
    discriminate.
Defined.

(** ** Why and when a trial raises *)

Lemma raise_keeps_data trial w e :
  fst (trial_body trial w) = Raise e -> data (snd (trial_body trial w)) = data w.
Proof.
  intros Hraise.
  destruct (complete_or_failure trial w)
    as [(cu & cd & ad & fc & tp & p & Hf & Hp & Hq) | (e' & evs & Hfail)].
  - rewrite (run_trial_body trial w cu cd ad fc tp p Hf Hp Hq) in Hraise. discriminate.
  - destruct (run_failure trial w e' evs Hfail) as (w' & -> & _ & Hdata & _).
    exact Hdata.
Qed.

(** X3: a trial raises exactly when its row lacks one of the five fields
    the loop body reads, when [target_pos] is read before any assignment,
    or when the participant quits at the response window; the exception
    names the first of these that happens (AttributeError, NameError,
    SystemExit), and by then the trial has made the calls of the baseline
    (cue_up, cue_down missing), of the three phases up to the cue-target
    interval (a later field or target_pos missing), or of everything up
    to the keyboard wait (quit), and has written no row. *)
Theorem failure_explains_raise trial w e :
  (fst (trial_body trial w) = Raise e -> failure trial w e (events_of trial w))
  /\ (forall evs, failure trial w e evs ->
        fst (trial_body trial w) = Raise e
        /\ events_of trial w = evs
        /\ rows_of trial w = []).
Proof.
  split.
  - intros Hraise.
    destruct (complete_or_failure trial w)
      as [(cu & cd & ad & fc & tp & p & Hf & Hp & Hq) | (e' & evs & Hfail)].
    + rewrite (run_trial_body trial w cu cd ad fc tp p Hf Hp Hq) in Hraise. discriminate.
    + destruct (events_of_failure trial w e' evs Hfail) as (Hr & -> & _).
      rewrite Hr in Hraise. injection Hraise as <-. exact Hfail.
  - intros evs Hfail. now apply events_of_failure.
Qed.

Lemma target_pos_after_none w tp :
  target_pos_after w tp = None
  <-> target_pos w = None /\ tp <> Py.VStr "up" /\ tp <> Py.VStr "down".
Proof.
  unfold target_pos_after. split.
  - destruct (Py.eq_str tp "up") eqn:Eu; [ discriminate | ].
    destruct (Py.eq_str tp "down") eqn:Ed; [ discriminate | ].
    intros Hn. repeat split; [ exact Hn | | ]; intros ->; cbn in *; discriminate.
  - intros (Hn & Hu & Hd).
    now rewrite (eq_str_false _ _ Hu), (eq_str_false _ _ Hd).
Qed.

Lemma answer_quit_dec w : {answer w = Quit} + {answer w <> Quit}.
Proof. destruct (answer w); [ right | right | right | left ]; congruence. Qed.

(** X4: a trial whose five fields exist ends in one of three ways. It
    raises NameError exactly when its target_position is neither 'up' nor
    'down' and no earlier trial has assigned [target_pos]; otherwise it
    reaches the response window, and there it raises SystemExit exactly
    when the participant quits, and runs to its end exactly when the wait
    returns. *)
Theorem name_error_iff trial w cu cd ad fc tp :
  has_fields trial cu cd ad fc tp ->
  (fst (trial_body trial w) = Raise (Py.NameError "target_pos")
   <-> target_pos w = None /\ tp <> Py.VStr "up" /\ tp <> Py.VStr "down")
  /\ (fst (trial_body trial w) = Raise Py.SystemExit
      <-> target_pos_after w tp <> None /\ answer w = Quit)
  /\ (fst (trial_body trial w) = Ret tt
      <-> target_pos_after w tp <> None /\ answer w <> Quit)
  /\ (fst (trial_body trial w) = Ret tt
      \/ fst (trial_body trial w) = Raise (Py.NameError "target_pos")
      \/ fst (trial_body trial w) = Raise Py.SystemExit).
Proof.
  intros Hf. rewrite <- target_pos_after_none.
  destruct (target_pos_after w tp) as [p | ] eqn:Hp.
  - destruct (answer_quit_dec w) as [Hq | Hq].
    + rewrite (run_trial_body_quit trial w cu cd ad fc tp p Hf Hp Hq). cbn [fst].
      split; [ split; discriminate | ].
      split; [ split; [ intros _; split; [ discriminate | exact Hq ] | reflexivity ] | ].
      split; [ split; [ discriminate | intros [_ Hn]; contradiction ] | ].
      right; right; reflexivity.
    + rewrite (run_trial_body trial w cu cd ad fc tp p Hf Hp Hq). cbn [fst].
      split; [ split; discriminate | ].
      split; [ split; [ discriminate | intros [_ Hn]; contradiction ] | ].
      split; [ split; [ intros _; split; [ discriminate | exact Hq ] | reflexivity ] | ].
      left; reflexivity.
  - destruct (events_of_failure trial w _ _
                (unbound_target_pos trial w cu cd ad fc tp Hf Hp)) as (-> & _).
    split; [ split; reflexivity | ].
    split; [ split; [ discriminate | intros [Hn _]; now contradiction Hn ] | ].
    split; [ split; [ discriminate | intros [Hn _]; now contradiction Hn ] | ].
    right; left; reflexivity.
Qed.

Lemma name_error_iff_witness :
  (fst (trial_body (sample_trial true true "left" "cong" "middle") (sample_world 0 NoKey))
   = Raise (Py.NameError "target_pos")
   <-> target_pos (sample_world 0 NoKey) = None
       /\ Py.VStr "middle" <> Py.VStr "up" /\ Py.VStr "middle" <> Py.VStr "down")
  /\ (fst (trial_body (sample_trial true true "left" "cong" "middle") (sample_world 0 NoKey))
      = Raise Py.SystemExit
      <-> target_pos_after (sample_world 0 NoKey) (Py.VStr "middle") <> None
          /\ answer (sample_world 0 NoKey) = Quit)
  /\ (fst (trial_body (sample_trial true true "left" "cong" "middle") (sample_world 0 NoKey))
      = Ret tt
      <-> target_pos_after (sample_world 0 NoKey) (Py.VStr "middle") <> None
          /\ answer (sample_world 0 NoKey) <> Quit)
  /\ (fst (trial_body (sample_trial true true "left" "cong" "middle") (sample_world 0 NoKey))
      = Ret tt
      \/ fst (trial_body (sample_trial true true "left" "cong" "middle")
                (sample_world 0 NoKey))
         = Raise (Py.NameError "target_pos")
      \/ fst (trial_body (sample_trial true true "left" "cong" "middle")
                (sample_world 0 NoKey))
         = Raise Py.SystemExit).
Proof.
  apply (name_error_iff (sample_trial true true "left" "cong" "middle")
           (sample_world 0 NoKey)
           (Py.VBool true) (Py.VBool true) (Py.VStr "left") (Py.VStr "cong")
           (Py.VStr "middle")).
  constructor; reflexivity.
Defined.

(** ** What a trial changes and what it leaves alone *)

Lemma untouched_world_after w target p evs row :
  is_arrows target = true ->
  untouched w (world_after w target p evs row)
  /\ target_pos (world_after w target p evs row) = Some p
  /\ random_calls (world_after w target p evs row) = S (random_calls w)
  /\ keyboard_calls (world_after w target p evs row) = S (keyboard_calls w).
Proof.
  intros Ha. destruct w. cbn. repeat split.
  intros s Hs. destruct target; try discriminate Ha; destruct s; try discriminate Hs;
    reflexivity.
Qed.

Lemma target_pos_world_at_quit w target p evs :
  target_pos (world_at_quit w target p evs) = Some p.
Proof. destruct w; reflexivity. Qed.

Lemma untouched_frames_in_place w w' :
  untouched w w' -> frames_in_place w -> frames_in_place w'.
Proof.
  intros (Hs & _ & _ & _ & Hpos) (H1 & H2 & H3 & H4). unfold frames_in_place.
  rewrite Hs, !Hpos by reflexivity. auto.
Qed.

(** X5: whatever the trial and however it ends, the loop body leaves
    [shift], the declared names and the position of the crosses and of
    the four frames as they were, keeps the frames in place, only appends
    to the log and to the data file (at most one row), and takes exactly
    one draw from the random source. *)
Theorem trial_leaves_setup_untouched trial w :
  untouched w (snd (trial_body trial w))
  /\ (frames_in_place w -> frames_in_place (snd (trial_body trial w)))
  /\ log (snd (trial_body trial w)) = log w ++ events_of trial w
  /\ data (snd (trial_body trial w)) = data w ++ rows_of trial w
  /\ (List.length (rows_of trial w) <= 1)%nat
  /\ random_calls (snd (trial_body trial w)) = S (random_calls w).
Proof.
  assert (Hmain : untouched w (snd (trial_body trial w))
                  /\ log (snd (trial_body trial w)) = log w ++ events_of trial w
                  /\ data (snd (trial_body trial w)) = data w ++ rows_of trial w
                  /\ (List.length (rows_of trial w) <= 1)%nat
                  /\ random_calls (snd (trial_body trial w)) = S (random_calls w)).
  { destruct (complete_or_failure trial w)
      as [(cu & cd & ad & fc & tp & p & Hf & Hp & Hq) | (e & evs & Hfail)].
    - rewrite (events_of_complete trial w cu cd ad fc tp p Hf Hp Hq).
      rewrite (rows_of_complete trial w cu cd ad fc tp p Hf Hp Hq).
      rewrite (run_trial_body trial w cu cd ad fc tp p Hf Hp Hq). cbn [snd].
      destruct (untouched_world_after w (target_of ad fc) p
                  (trial_events w trial cu cd ad fc p) (result_row trial (response w))
                  (target_of_is_arrows ad fc)) as (Hu & _ & Hr & _).
      rewrite log_world_after, data_world_after. cbn [List.length]. auto.
    - destruct (events_of_failure trial w e evs Hfail) as (_ & -> & ->).
      destruct (run_failure trial w e evs Hfail) as (w' & -> & Hl & Hd & Hr & Hu).
      cbn [snd List.length]. rewrite app_nil_r.
      repeat split; solve [ assumption | apply Hu | lia ]. }
  destruct Hmain as (Hu & Hl & Hd & Hn & Hr).
  split; [ exact Hu | ].
  split; [ now apply untouched_frames_in_place | ].
  auto.
Qed.

(** ** Where the target is drawn *)

Lemma target_in_events_until w cu cd target p rest :
  In (EPresent target p false true)
     (cue_events w cu cd ++ target_events w target p ++ rest).
Proof.
  unfold target_events.
  apply in_or_app; right. apply in_or_app; left.
  apply in_or_app; right. apply in_or_app; left. now left.
Qed.

Lemma target_drawn trial w cu cd ad fc tp p :
  has_fields trial cu cd ad fc tp ->
  target_pos_after w tp = Some p ->
  In (EPresent (target_of ad fc) p false true) (events_of trial w).
Proof.
  intros Hf Hp.
  destruct (events_until_window trial w cu cd ad fc tp p Hf Hp) as [rest ->].
  apply target_in_events_until.
Qed.

(** X6: a trial whose target_position is neither 'up' nor 'down', run
    after [target_pos] has been assigned, raises no NameError: it draws
    its target where the last positioned target was and leaves
    [target_pos] as it found it; it then runs to its end when the
    response wait returns, and raises SystemExit when the participant
    quits there. *)
Theorem unrecognized_position_reuses_last trial w cu cd ad fc tp p :
  has_fields trial cu cd ad fc tp ->
  tp <> Py.VStr "up" ->
  tp <> Py.VStr "down" ->
  target_pos w = Some p ->
  fst (trial_body trial w) <> Raise (Py.NameError "target_pos")
  /\ (answer w <> Quit -> fst (trial_body trial w) = Ret tt)
  /\ (answer w = Quit -> fst (trial_body trial w) = Raise Py.SystemExit)
  /\ In (EPresent (target_of ad fc) p false true) (events_of trial w)
  /\ target_pos (snd (trial_body trial w)) = Some p.
Proof.
  intros Hf Hu Hd Hw.
  assert (Hp : target_pos_after w tp = Some p).
  { unfold target_pos_after. now rewrite (eq_str_false _ _ Hu), (eq_str_false _ _ Hd). }
  pose proof (target_drawn trial w cu cd ad fc tp p Hf Hp) as Hin.
  destruct (answer_quit_dec w) as [Hq | Hq].
  - rewrite (run_trial_body_quit trial w cu cd ad fc tp p Hf Hp Hq). cbn [fst snd].
    split; [ discriminate | ]. split; [ intros Hn; contradiction | ].
    split; [ reflexivity | ]. split; [ exact Hin | ].
    apply target_pos_world_at_quit.
  - rewrite (run_trial_body trial w cu cd ad fc tp p Hf Hp Hq). cbn [fst snd].
    split; [ discriminate | ]. split; [ reflexivity | ].
    split; [ intros Hn; contradiction | ]. split; [ exact Hin | ].
    apply untouched_world_after, target_of_is_arrows.
Qed.

Lemma unrecognized_position_reuses_last_witness :
  fst (trial_body (sample_trial false false "right" "cong" "middle")
         (snd (trial_body (sample_trial false false "left" "cong" "down")
                 (sample_world 0 NoKey))))
  <> Raise (Py.NameError "target_pos")
  /\ fst (trial_body (sample_trial false false "right" "cong" "middle")
            (snd (trial_body (sample_trial false false "left" "cong" "down")
                    (sample_world 0 NoKey)))) = Ret tt
  /\ In (EPresent (target_of (Py.VStr "right") (Py.VStr "cong")) (0, -70) false true)
        (events_of (sample_trial false false "right" "cong" "middle")
           (snd (trial_body (sample_trial false false "left" "cong" "down")
                   (sample_world 0 NoKey))))
  /\ target_pos (snd (trial_body (sample_trial false false "right" "cong" "middle")
                        (snd (trial_body (sample_trial false false "left" "cong" "down")
                                (sample_world 0 NoKey))))) = Some (0, -70).
Proof.
  destruct (unrecognized_position_reuses_last
              (sample_trial false false "right" "cong" "middle")
              (snd (trial_body (sample_trial false false "left" "cong" "down")
                      (sample_world 0 NoKey)))
              (Py.VBool false) (Py.VBool false) (Py.VStr "right") (Py.VStr "cong")
              (Py.VStr "middle") (0, -70))
    as (Hname & Hret & _ & Hin & Hpos).
  - constructor; reflexivity.
  - discriminate.
  - discriminate.
  - vm_compute. reflexivity.
  - split; [ exact Hname | ]. split; [ | split; [ exact Hin | exact Hpos ] ].
    apply Hret. vm_compute. discriminate.
Defined.

(** X7: once one trial has run to its end, a later trial whose five
    fields exist raises neither AttributeError nor NameError, whatever
    its target_position holds: it runs to its end when its response wait
    returns, and raises SystemExit when the participant quits there. *)
Theorem completed_trial_protects_next trial w trial' cu cd ad fc tp :
  fst (trial_body trial w) = Ret tt ->
  has_fields trial' cu cd ad fc tp ->
  (answer (snd (trial_body trial w)) <> Quit ->
   fst (trial_body trial' (snd (trial_body trial w))) = Ret tt)
  /\ (answer (snd (trial_body trial w)) = Quit ->
      fst (trial_body trial' (snd (trial_body trial w))) = Raise Py.SystemExit).
Proof.
  intros Hret Hf'.
  destruct (complete_or_failure trial w)
    as [(cu0 & cd0 & ad0 & fc0 & tp0 & p0 & Hf & Hp & Hq) | (e & evs & Hfail)].
  2:{ destruct (events_of_failure trial w e evs Hfail) as (Hr & _).
      rewrite Hr in Hret. discriminate. }
  rewrite (run_trial_body trial w cu0 cd0 ad0 fc0 tp0 p0 Hf Hp Hq). cbn [snd].
  set (w1 := world_after _ _ _ _ _).
  assert (Hw1 : target_pos w1 = Some p0)
    by apply untouched_world_after, target_of_is_arrows.
  assert (Hp' : exists p, target_pos_after w1 tp = Some p).
  { unfold target_pos_after. rewrite Hw1.
    destruct (Py.eq_str tp "up"); [ eauto | ].
    destruct (Py.eq_str tp "down"); eauto. }
  destruct Hp' as [p Hp']. split; intros Hq'.
  - now rewrite (run_trial_body trial' w1 cu cd ad fc tp p Hf' Hp' Hq').
  - now rewrite (run_trial_body_quit trial' w1 cu cd ad fc tp p Hf' Hp' Hq').
Qed.

Lemma completed_trial_protects_next_witness :
  fst (trial_body (sample_trial true false "left" "incong" "sideways")
         (snd (trial_body (sample_trial false false "left" "cong" "up")
                 (sample_world 0 NoKey)))) = Ret tt
  /\ fst (trial_body (sample_trial true false "left" "incong" "sideways")
            (snd (trial_body (sample_trial false false "left" "cong" "up")
                    (initial_world 70 (fun _ => 0)
                       (fun n => if Nat.eqb n 1 then Quit else NoKey)))))
     = Raise Py.SystemExit.
Proof.
  split.
  - apply (completed_trial_protects_next
             (sample_trial false false "left" "cong" "up") (sample_world 0 NoKey)
             (sample_trial true false "left" "incong" "sideways")
             (Py.VBool true) (Py.VBool false) (Py.VStr "left") (Py.VStr "incong")
             (Py.VStr "sideways")).
    + vm_compute. reflexivity.
    + constructor; reflexivity.
    + vm_compute. discriminate.
  - apply (completed_trial_protects_next
             (sample_trial false false "left" "cong" "up")
             (initial_world 70 (fun _ => 0)
                (fun n => if Nat.eqb n 1 then Quit else NoKey))
             (sample_trial true false "left" "incong" "sideways")
             (Py.VBool true) (Py.VBool false) (Py.VStr "left") (Py.VStr "incong")
             (Py.VStr "sideways")).
    + vm_compute. reflexivity.
    + constructor; reflexivity.
    + vm_compute. reflexivity.
Defined.

(** X8: with the frames in place, the target of a trial is drawn at the
    position of the top frame when target_position is 'up' and at the
    position of the bottom frame when it is 'down'. *)
Theorem target_drawn_in_its_frame trial w cu cd ad fc tp :
  has_fields trial cu cd ad fc tp ->
  frames_in_place w ->
  tp = Py.VStr "up" \/ tp = Py.VStr "down" ->
  In (EPresent (target_of ad fc)
        (if Py.eq_str tp "up" then position w box_top else position w box_bottom)
        false true)
     (events_of trial w).
Proof.
  intros Hf (Ht & _ & Hb & _) Htp.
  assert (Hp : target_pos_after w tp
               = Some (if Py.eq_str tp "up" then position w box_top
                       else position w box_bottom)).
  { unfold target_pos_after. rewrite Ht, Hb. destruct Htp as [-> | ->]; reflexivity. }
  exact (target_drawn trial w cu cd ad fc tp _ Hf Hp).
Qed.

Lemma target_drawn_in_its_frame_witness :
  In (EPresent (target_of (Py.VStr "right") (Py.VStr "incong"))
        (if Py.eq_str (Py.VStr "down") "up"
         then position (sample_world 0 NoKey) box_top
         else position (sample_world 0 NoKey) box_bottom)
        false true)
     (events_of (sample_trial false true "right" "incong" "down") (sample_world 0 NoKey)).
Proof.
  apply (target_drawn_in_its_frame (sample_trial false true "right" "incong" "down")
           (sample_world 0 NoKey)
           (Py.VBool false) (Py.VBool true) (Py.VStr "right") (Py.VStr "incong")
           (Py.VStr "down")).
  - constructor; reflexivity.
  - repeat split.
  - right; reflexivity.
Defined.

(** ** The phases and their lengths *)

(** X9: whatever the two cue flags hold, a trial that runs to its end
    shows six states during its six waits: the neutral fixation, the cue
    state of the two flags, the neutral fixation, the target, the neutral
    fixation and the feedback. *)
Theorem phases_for_every_cue trial w cu cd ad fc tp p :
  has_fields trial cu cd ad fc tp ->
  target_pos_after w tp = Some p ->
  answer w <> Quit ->
  shown_in_phases (events_of trial w)
  = map Some
      [Fixation neutral; cue_state (Py.truthy cu) (Py.truthy cd); Fixation neutral;
       FixationTarget (target_of ad fc) p; Fixation neutral;
       Fixation (if correct_response ad (fst (response w)) then positive else negative)].
Proof.
  intros Hf Hp Hq.
  rewrite (events_of_complete trial w cu cd ad fc tp p Hf Hp Hq).
  pose proof (target_of_is_arrows ad fc) as Ha.
  unfold trial_events, cue_events, baseline_events, target_events, response_events,
    feedback_events, display_events.
  destruct (Py.truthy cu), (Py.truthy cd);
    destruct (target_of ad fc); try discriminate Ha;
    destruct (correct_response ad (fst (response w))); reflexivity.
Qed.

Lemma phases_for_every_cue_witness :
  shown_in_phases (events_of (sample_trial true true "right" "incong" "down")
                     (sample_world 0 (Pressed 106 400)))
  = map Some
      [Fixation neutral;
       cue_state (Py.truthy (Py.VBool true)) (Py.truthy (Py.VBool true));
       Fixation neutral;
       FixationTarget (target_of (Py.VStr "right") (Py.VStr "incong")) (0, -70);
       Fixation neutral;
       Fixation (if correct_response (Py.VStr "right")
                      (fst (response (sample_world 0 (Pressed 106 400))))
                 then positive else negative)].
Proof.
  apply (phases_for_every_cue (sample_trial true true "right" "incong" "down")
           (sample_world 0 (Pressed 106 400))
           (Py.VBool true) (Py.VBool true) (Py.VStr "right") (Py.VStr "incong")
           (Py.VStr "down") (0, -70)).
  - constructor; reflexivity.
  - reflexivity.
  - discriminate.
Defined.

Lemma total_wait_app evs1 evs2 :
  total_wait (evs1 ++ evs2) = total_wait evs1 + total_wait evs2.
Proof.
  unfold total_wait. induction evs1 as [ | e evs1 IH ]; cbn [fold_right app]; lia.
Qed.

Lemma total_wait_display pos cross a b : total_wait (display_events pos cross a b) = 0.
Proof. destruct a, b; reflexivity. Qed.

Lemma total_wait_trial w trial cu cd ad fc p :
  answer w <> Quit ->
  total_wait (trial_events w trial cu cd ad fc p)
  = Float64.ticks (baseline_duration (random_bits w (random_calls w)))
    + (CUE_DISPLAY_DURATION + CUE_TARGET_INTERVAL + TARGET_DISPLAY_DURATION
       + window_time (answer w) + 400) * Float64.unit_ticks.
Proof.
  intros Hq.
  unfold trial_events, cue_events, baseline_events, target_events, response_events,
    feedback_events.
  rewrite !total_wait_app, !total_wait_display.
  unfold total_wait, window_time. cbn [fold_right waited].
  destruct (answer w) as [k t | | t | ]; [ | | | contradiction ];
    cbn [waited]; lia.
Qed.

Lemma window_time_response a :
  a <> Quit -> (forall t, a <> Declined t) -> window_time a = response_time (returned a).
Proof.
  intros Hq Hd. destruct a as [k t | | t | ]; try reflexivity.
  - now contradiction (Hd t).
  - contradiction.
Qed.

(** X10: the waits of a trial that runs to its end add up to the
    baseline, 100 + 400 + 200 ms, the time of the response window and
    400 ms of feedback. The response window lasts up to the key, or
    1700 ms when none comes, or up to the moment a quit is declined;
    when it ends within the 1700 ms given to the wait, the waits of the
    trial take between 2600 and 6300 ms. *)
Theorem trial_wait_total trial w cu cd ad fc tp p :
  has_fields trial cu cd ad fc tp ->
  target_pos_after w tp = Some p ->
  answer w <> Quit ->
  total_wait (events_of trial w)
  = Float64.ticks (baseline_duration (random_bits w (random_calls w)))
    + (CUE_DISPLAY_DURATION + CUE_TARGET_INTERVAL + TARGET_DISPLAY_DURATION
       + window_time (answer w) + 400) * Float64.unit_ticks
  /\ ((forall t, answer w <> Declined t) ->
      window_time (answer w) = response_time (response w))
  /\ (0 <= window_time (answer w) <= MAX_RESPONSE_DURATION ->
      2600 * Float64.unit_ticks <= total_wait (events_of trial w)
      <= 6300 * Float64.unit_ticks).
Proof.
  intros Hf Hp Hq.
  rewrite (events_of_complete trial w cu cd ad fc tp p Hf Hp Hq), total_wait_trial
    by exact Hq.
  split; [ reflexivity | ].
  split; [ intros Hd; now apply window_time_response | ].
  intros Hr.
  pose proof (baseline_duration_range (random_bits w (random_calls w))) as Hb.
  assert (Hu : 0 < Float64.unit_ticks) by reflexivity.
  unfold CUE_DISPLAY_DURATION, CUE_TARGET_INTERVAL, TARGET_DISPLAY_DURATION,
    MAX_RESPONSE_DURATION in *.
  nia.
Qed.

Lemma trial_wait_total_witness :
  total_wait (events_of (sample_trial false false "left" "cong" "up")
                (sample_world 0 (Pressed 102 1700)))
  = Float64.ticks (baseline_duration
                     (random_bits (sample_world 0 (Pressed 102 1700))
                        (random_calls (sample_world 0 (Pressed 102 1700)))))
    + (CUE_DISPLAY_DURATION + CUE_TARGET_INTERVAL + TARGET_DISPLAY_DURATION
       + response_time (response (sample_world 0 (Pressed 102 1700))) + 400)
      * Float64.unit_ticks
  /\ 2600 * Float64.unit_ticks
     <= total_wait (events_of (sample_trial false false "left" "cong" "up")
                      (sample_world 0 (Pressed 102 1700)))
     <= 6300 * Float64.unit_ticks.
Proof.
  destruct (trial_wait_total (sample_trial false false "left" "cong" "up")
              (sample_world 0 (Pressed 102 1700))
              (Py.VBool false) (Py.VBool false) (Py.VStr "left") (Py.VStr "cong")
              (Py.VStr "up") (0, 70)) as (Hsum & Htime & Hrange).
  - constructor; reflexivity.
  - reflexivity.
  - discriminate.
  - split.
    + rewrite <- Htime by discriminate. exact Hsum.
    + apply Hrange. cbn. unfold MAX_RESPONSE_DURATION. lia.
Defined.

(** ** The loop *)

Lemma rows_from_same w w' n trials :
  keyboard_answers w' = keyboard_answers w ->
  rows_from w' n trials = rows_from w n trials.
Proof.
  intros Hk. revert n. induction trials as [ | trial rest IH ]; intros n;
    [ reflexivity | ].
  cbn [rows_from]. now rewrite Hk, IH.
Qed.

Lemma no_quit_same w w' n count :
  keyboard_answers w' = keyboard_answers w ->
  no_quit w n count -> no_quit w' n count.
Proof.
  intros Hk. revert n. induction count as [ | count IH ]; intros n; [ trivial | ].
  cbn [no_quit]. rewrite Hk. intros [Hq Hrest]. split; [ exact Hq | now apply IH ].
Qed.

Lemma baselines_from_same w w' n count :
  random_bits w' = random_bits w -> baselines_from w' n count = baselines_from w n count.
Proof.
  intros Hb. revert n. induction count as [ | count IH ]; intros n; [ reflexivity | ].
  cbn [baselines_from]. now rewrite Hb, IH.
Qed.

Lemma baselines_app evs1 evs2 : baselines (evs1 ++ evs2) = baselines evs1 ++ baselines evs2.
Proof.
  induction evs1 as [ | e evs1 IH ]; [ reflexivity | ].
  destruct e as [ | [ | ] | | ]; cbn; now rewrite IH.
Qed.

Lemma baselines_display pos cross a b : baselines (display_events pos cross a b) = [].
Proof. destruct a, b; reflexivity. Qed.

Lemma baselines_trial w trial cu cd ad fc p :
  baselines (trial_events w trial cu cd ad fc p)
  = [baseline_duration (random_bits w (random_calls w))].
Proof.
  unfold trial_events, cue_events, baseline_events, target_events, response_events,
    feedback_events.
  rewrite !baselines_app, !baselines_display. reflexivity.
Qed.

Lemma valid_trial_completes trial w :
  valid_trial trial ->
  exists cu cd ad fc tp p,
    has_fields trial cu cd ad fc tp /\ target_pos_after w tp = Some p.
Proof.
  intros (cu & cd & ad & fc & tp & Hf & Htp).
  exists cu, cd, ad, fc, tp.
  unfold target_pos_after. destruct Htp as [-> | ->]; cbn; eauto.
Qed.

(** The loop over valid trials, one trial after the other, when none of
    their response waits ends in a quit. *)
Lemma run_for_each trials :
  forall w,
    Forall valid_trial trials ->
    no_quit w (keyboard_calls w) (List.length trials) ->
    exists w' evs,
      for_each trials w = (Ret tt, w')
      /\ log w' = log w ++ evs
      /\ baselines evs = baselines_from w (random_calls w) (List.length trials)
      /\ data w' = data w ++ rows_from w (keyboard_calls w) trials
      /\ untouched w w'.
Proof.
  induction trials as [ | trial rest IH ]; intros w Hall Hnq.
  - exists w, []. cbn. rewrite !app_nil_r. repeat split.
  - inversion Hall as [ | ? ? Hv Hrest ]; subst.
    destruct (valid_trial_completes trial w Hv)
      as (cu & cd & ad & fc & tp & p & Hf & Hp).
    cbn [List.length no_quit] in Hnq. destruct Hnq as [Hq Hnq].
    change (answer w <> Quit) in Hq.
    cbn [for_each].
    rewrite (run_bind _ _ _ _ _ (run_trial_body trial w cu cd ad fc tp p Hf Hp Hq)).
    set (w1 := world_after w (target_of ad fc) p (trial_events w trial cu cd ad fc p)
                 (result_row trial (response w))).
    destruct (untouched_world_after w (target_of ad fc) p
                (trial_events w trial cu cd ad fc p) (result_row trial (response w))
                (target_of_is_arrows ad fc)) as (Hu & _ & Hr & Hk).
    fold w1 in Hu, Hr, Hk.
    destruct Hu as (Hs & Hb & Hkp & Hn & Hpos).
    assert (Hnq1 : no_quit w1 (keyboard_calls w1) (List.length rest)).
    { rewrite Hk. now apply (no_quit_same w w1). }
    destruct (IH w1 Hrest Hnq1) as (w' & evs & Hrun & Hlog & Hbase & Hdata & Hu').
    exists w', (trial_events w trial cu cd ad fc p ++ evs).
    split; [ exact Hrun | ].
    split; [ | split; [ | split ] ].
    + rewrite Hlog. unfold w1. rewrite log_world_after. now rewrite app_assoc.
    + rewrite baselines_app, baselines_trial, Hbase, Hr.
      cbn [List.length baselines_from app].
      now rewrite (baselines_from_same w w1 _ _ Hb).
    + rewrite Hdata, Hk. unfold w1 at 1. rewrite data_world_after, <- app_assoc.
      cbn [rows_from app]. unfold response, answer.
      now rewrite (rows_from_same w w1 _ _ Hkp).
    + destruct Hu' as (Hs' & Hb' & Hkp' & Hn' & Hpos').
      repeat split; try congruence.
      intros s Hs0. now rewrite Hpos', Hpos.
Qed.

(** X11: over valid trials, when no response wait ends in a quit, the
    loop runs to its end and writes one row per trial, in the order of
    the trials: the row of the n-th trial holds the cells of that trial
    followed by the key and the adjusted reaction time that the n-th
    keyboard wait of the loop returned. *)
Theorem loop_writes_one_row_per_trial trials w :
  Forall valid_trial trials ->
  no_quit w (keyboard_calls w) (List.length trials) ->
  fst (for_each trials w) = Ret tt
  /\ loop_rows trials w = rows_from w (keyboard_calls w) trials
  /\ List.length (loop_rows trials w) = List.length trials.
Proof.
  intros Hall Hnq.
  destruct (run_for_each trials w Hall Hnq) as (w' & evs & Hrun & _ & _ & Hdata & _).
  unfold loop_rows. rewrite Hrun. cbn [fst snd].
  rewrite Hdata, skipn_length_app.
  repeat split.
  clear. generalize (keyboard_calls w).
  induction trials as [ | t rest IH ]; intros n; cbn; [ reflexivity | now rewrite IH ].
Qed.

Lemma loop_writes_one_row_per_trial_witness :
  fst (for_each [sample_trial true false "left" "cong" "up";
                 sample_trial false false "right" "incong" "down"]
         (sample_world 0 (Pressed 106 300))) = Ret tt
  /\ loop_rows [sample_trial true false "left" "cong" "up";
                sample_trial false false "right" "incong" "down"]
       (sample_world 0 (Pressed 106 300))
     = rows_from (sample_world 0 (Pressed 106 300))
         (keyboard_calls (sample_world 0 (Pressed 106 300)))
         [sample_trial true false "left" "cong" "up";
          sample_trial false false "right" "incong" "down"]
  /\ List.length (loop_rows [sample_trial true false "left" "cong" "up";
                             sample_trial false false "right" "incong" "down"]
                    (sample_world 0 (Pressed 106 300)))
     = List.length [sample_trial true false "left" "cong" "up";
                    sample_trial false false "right" "incong" "down"].
Proof.
  apply (loop_writes_one_row_per_trial
           [sample_trial true false "left" "cong" "up";
            sample_trial false false "right" "incong" "down"]
           (sample_world 0 (Pressed 106 300))).
  - repeat constructor;
      [ exists (Py.VBool true), (Py.VBool false), (Py.VStr "left"), (Py.VStr "cong"),
          (Py.VStr "up")
      | exists (Py.VBool false), (Py.VBool false), (Py.VStr "right"), (Py.VStr "incong"),
          (Py.VStr "down") ];
      (split; [ constructor; reflexivity | auto ]).
  - cbn. repeat split; discriminate.
Defined.

(** X12: over valid trials, when no response wait ends in a quit, the
    baselines of the loop are computed from consecutive draws of the
    random source, one per trial and none twice: the n-th trial waits
    the baseline of the n-th draw after those already taken. *)
Theorem loop_draws_in_turn trials w :
  Forall valid_trial trials ->
  no_quit w (keyboard_calls w) (List.length trials) ->
  baselines (loop_events trials w)
  = baselines_from w (random_calls w) (List.length trials).
Proof.
  intros Hall Hnq.
  destruct (run_for_each trials w Hall Hnq) as (w' & evs & Hrun & Hlog & Hbase & _ & _).
  unfold loop_events. rewrite Hrun. cbn [snd].
  now rewrite Hlog, skipn_length_app.
Qed.

Lemma loop_draws_in_turn_witness :
  baselines (loop_events [sample_trial true false "left" "cong" "up";
                          sample_trial false false "right" "incong" "down"]
               (initial_world 70 (fun n => Z.of_nat n * 2 ^ 50) (fun _ => NoKey)))
  = baselines_from (initial_world 70 (fun n => Z.of_nat n * 2 ^ 50) (fun _ => NoKey))
      (random_calls (initial_world 70 (fun n => Z.of_nat n * 2 ^ 50) (fun _ => NoKey)))
      (List.length [sample_trial true false "left" "cong" "up";
                    sample_trial false false "right" "incong" "down"]).
Proof.
  apply (loop_draws_in_turn
           [sample_trial true false "left" "cong" "up";
            sample_trial false false "right" "incong" "down"]
           (initial_world 70 (fun n => Z.of_nat n * 2 ^ 50) (fun _ => NoKey))).
  - repeat constructor;
      [ exists (Py.VBool true), (Py.VBool false), (Py.VStr "left"), (Py.VStr "cong"),
          (Py.VStr "up")
      | exists (Py.VBool false), (Py.VBool false), (Py.VStr "right"), (Py.VStr "incong"),
          (Py.VStr "down") ];
      (split; [ constructor; reflexivity | auto ]).
  - cbn. repeat split; discriminate.
Defined.

Lemma for_each_app before after w w' :
  for_each before w = (Ret tt, w') ->
  for_each (before ++ after) w = for_each after w'.
Proof.
  revert w. induction before as [ | trial rest IH ]; intros w Hrun.
  - cbn in Hrun. injection Hrun as <-. reflexivity.
  - cbn [for_each app] in *. unfold bind in *.
    destruct (trial_body trial w) as [[[] | e] w1]; [ now apply IH | discriminate ].
Qed.

(** X13: an exception leaves the loop. When the trials before a trial
    that raises are valid and none of their response waits ends in a
    quit, the loop ends with the exception of that trial (the SystemExit
    of a quit included), in the world where that trial stopped; the data
    file holds the rows of the trials before it and no other; the trials
    after it are not run. *)
Theorem loop_stops_at_first_exception before bad after w e :
  Forall valid_trial before ->
  no_quit w (keyboard_calls w) (List.length before) ->
  fst (trial_body bad (snd (for_each before w))) = Raise e ->
  for_each (before ++ bad :: after) w = trial_body bad (snd (for_each before w))
  /\ fst (for_each (before ++ bad :: after) w) = Raise e
  /\ loop_rows (before ++ bad :: after) w = rows_from w (keyboard_calls w) before.
Proof.
  intros Hall Hnq Hraise.
  destruct (run_for_each before w Hall Hnq) as (w' & evs & Hrun & _ & _ & Hdata & _).
  rewrite Hrun in Hraise. cbn [snd] in Hraise.
  assert (Hloop : for_each (before ++ bad :: after) w = trial_body bad w').
  { rewrite (for_each_app before (bad :: after) w w' Hrun).
    cbn [for_each]. unfold bind.
    destruct (trial_body bad w') as [[[] | e'] w2]; [ discriminate | reflexivity ]. }
  rewrite Hrun. cbn [snd]. split; [ exact Hloop | ].
  split; [ now rewrite Hloop | ].
  unfold loop_rows. rewrite Hloop.
  now rewrite (raise_keeps_data bad w' e Hraise), Hdata, skipn_length_app.
Qed.

Lemma loop_stops_at_first_exception_witness :
  for_each ([sample_trial true false "left" "cong" "up"]
            ++ sample_trial false true "right" "cong" "down"
               :: [sample_trial false false "right" "incong" "down"])
    (initial_world 70 (fun _ => 0)
       (fun n => if Nat.eqb n 1 then Quit else Pressed 106 300))
  = trial_body (sample_trial false true "right" "cong" "down")
      (snd (for_each [sample_trial true false "left" "cong" "up"]
              (initial_world 70 (fun _ => 0)
                 (fun n => if Nat.eqb n 1 then Quit else Pressed 106 300))))
  /\ fst (for_each ([sample_trial true false "left" "cong" "up"]
                    ++ sample_trial false true "right" "cong" "down"
                       :: [sample_trial false false "right" "incong" "down"])
            (initial_world 70 (fun _ => 0)
               (fun n => if Nat.eqb n 1 then Quit else Pressed 106 300)))
     = Raise Py.SystemExit
  /\ loop_rows ([sample_trial true false "left" "cong" "up"]
                ++ sample_trial false true "right" "cong" "down"
                   :: [sample_trial false false "right" "incong" "down"])
       (initial_world 70 (fun _ => 0)
          (fun n => if Nat.eqb n 1 then Quit else Pressed 106 300))
     = rows_from (initial_world 70 (fun _ => 0)
                    (fun n => if Nat.eqb n 1 then Quit else Pressed 106 300))
         (keyboard_calls (initial_world 70 (fun _ => 0)
                            (fun n => if Nat.eqb n 1 then Quit else Pressed 106 300)))
         [sample_trial true false "left" "cong" "up"].
Proof.
  apply (loop_stops_at_first_exception
           [sample_trial true false "left" "cong" "up"]
           (sample_trial false true "right" "cong" "down")
           [sample_trial false false "right" "incong" "down"]
           (initial_world 70 (fun _ => 0)
              (fun n => if Nat.eqb n 1 then Quit else Pressed 106 300))
           Py.SystemExit).
  - repeat constructor.
    exists (Py.VBool true), (Py.VBool false), (Py.VStr "left"), (Py.VStr "cong"),
      (Py.VStr "up").
    split; [ constructor; reflexivity | auto ].
  - cbn. repeat split; discriminate.
  - vm_compute. reflexivity.
Defined.

(** ** The data file of a session *)

Lemma firstn_length_app {A} (l l' : list A) : firstn (List.length l) (l ++ l') = l.
Proof. induction l as [ | a l IH ]; [ reflexivity | cbn; now rewrite IH ]. Qed.

Lemma result_row_combine names r kr :
  List.length r = List.length names ->
  firstn (List.length names) (result_row (combine names r) kr) = r
  /\ List.length (result_row (combine names r) kr) = (List.length names + 2)%nat.
Proof.
  intros Hr. unfold result_row. rewrite (values_combine names r Hr). split.
  - rewrite <- Hr. apply firstn_length_app.
  - rewrite length_app, Hr. reflexivity.
Qed.

Lemma rows_from_itertuples w names rs :
  Forall (fun r => List.length r = List.length names) rs ->
  forall n,
    map (firstn (List.length names)) (rows_from w n (map (combine names) rs)) = rs
    /\ Forall (fun row => List.length row = (List.length names + 2)%nat)
         (rows_from w n (map (combine names) rs)).
Proof.
  induction 1 as [ | r rs Hr Hrs IH ]; intros n; [ split; constructor | ].
  cbn [map rows_from]. destruct (IH (S n)) as [IHm IHf].
  destruct (result_row_combine names r (returned (keyboard_answers w n)) Hr)
    as [Hfirst Hl].
  split.
  - now rewrite Hfirst, IHm.
  - now constructor.
Qed.



(** ** What the feedback depends on, and what the target shows *)

(** X15: the feedback of a trial that runs to its end depends on the key
    returned by the keyboard wait and on arrow_direction only: two such
    trials that agree on these show the same feedback, whatever their
    cues, their flankers, their target position, the time of the key and
    the rest of their rows. *)
Theorem feedback_depends_on_key_and_direction
    trial w cu cd fc tp p trial' w' cu' cd' fc' tp' p' ad :
  has_fields trial cu cd ad fc tp ->
  target_pos_after w tp = Some p ->
  answer w <> Quit ->
  has_fields trial' cu' cd' ad fc' tp' ->
  target_pos_after w' tp' = Some p' ->
  answer w' <> Quit ->
  fst (response w) = fst (response w') ->
  feedback_shown (events_of trial w) = feedback_shown (events_of trial' w').
Proof.
  intros Hf Hp Hq Hf' Hp' Hq' Hkey.
  rewrite (events_of_complete trial w cu cd ad fc tp p Hf Hp Hq).
  rewrite (events_of_complete trial' w' cu' cd' ad fc' tp' p' Hf' Hp' Hq').
  now rewrite !feedback_shown_complete, Hkey.
Qed.

Lemma feedback_depends_on_key_and_direction_witness :
  feedback_shown (events_of (sample_trial false false "left" "cong" "up")
                    (sample_world 0 (Pressed 102 350)))
  = feedback_shown (events_of (sample_trial true true "left" "incong" "down")
                      (sample_world 7 (Pressed 102 1200))).
Proof.
  apply (feedback_depends_on_key_and_direction
           (sample_trial false false "left" "cong" "up") (sample_world 0 (Pressed 102 350))
           (Py.VBool false) (Py.VBool false) (Py.VStr "cong") (Py.VStr "up") (0, 70)
           (sample_trial true true "left" "incong" "down")
           (sample_world 7 (Pressed 102 1200))
           (Py.VBool true) (Py.VBool true) (Py.VStr "incong") (Py.VStr "down") (0, -70)
           (Py.VStr "left")).
  - constructor; reflexivity.
  - reflexivity.
  - discriminate.
  - constructor; reflexivity.
  - reflexivity.
  - discriminate.
  - reflexivity.
Defined.

(** X16: for a trial whose arrow_direction is 'left' or 'right', the
    central arrow of the target that is drawn points in that direction;
    the four flankers repeat the central arrow when flanker_congruency is
    'cong' and are the opposite arrow otherwise; and when the keyboard
    wait returns a key, the feedback shown is the positive one exactly
    when that key is the one bound to the direction of the central
    arrow. *)
Theorem target_shows_direction_and_congruency trial w cu cd ad fc tp p d :
  has_fields trial cu cd ad fc tp ->
  target_pos_after w tp = Some p ->
  ad = Py.VStr d ->
  d = "left" \/ d = "right" ->
  In (EPresent (target_of ad fc) p false true) (events_of trial w)
  /\ central_arrow (target_of ad fc) = Some (arrow_of d)
  /\ flankers (target_of ad fc)
     = repeat (Some (if Py.eq_str fc "cong" then arrow_of d else opposite (arrow_of d))) 4
  /\ forall k t, answer w = Pressed k t ->
       (feedback_shown (events_of trial w) = Some (Fixation positive)
        <-> bound_direction k = Some d).
Proof.
  intros Hf Hp Had Hd.
  split; [ exact (target_drawn trial w cu cd ad fc tp p Hf Hp) | ].
  split; [ | split ].
  - subst ad. unfold target_of.
    destruct Hd as [-> | ->]; cbn [Py.eq_str String.eqb Ascii.eqb Bool.eqb];
      destruct (Py.eq_str fc "cong"); reflexivity.
  - subst ad. unfold target_of.
    destruct Hd as [-> | ->]; cbn [Py.eq_str String.eqb Ascii.eqb Bool.eqb];
      destruct (Py.eq_str fc "cong"); reflexivity.
  - intros k t Hk.
    assert (Hq : answer w <> Quit) by (rewrite Hk; discriminate).
    rewrite (events_of_complete trial w cu cd ad fc tp p Hf Hp Hq),
      feedback_shown_complete.
    assert (Hr : fst (response w) = Some k) by (unfold response; now rewrite Hk).
    rewrite Hr.
    pose proof (correct_response_iff ad (Some k)) as Hiff.
    destruct (correct_response ad (Some k)).
    + destruct Hiff as [Hex _]. destruct (Hex eq_refl) as (k' & d' & Hk' & Hb & Hd').
      injection Hk' as <-. rewrite Had in Hd'. injection Hd' as <-.
      split; [ intros _; exact Hb | reflexivity ].
    + split; [ discriminate | ].
      intros Hb. destruct Hiff as [_ Hex].
      assert (Habs : false = true) by (apply Hex; now exists k, d).
      discriminate Habs.
Qed.

Lemma target_shows_direction_and_congruency_witness :
  In (EPresent (target_of (Py.VStr "left") (Py.VStr "incong")) (0, 70) false true)
     (events_of (sample_trial false false "left" "incong" "up")
        (sample_world 0 (Pressed 102 350)))
  /\ central_arrow (target_of (Py.VStr "left") (Py.VStr "incong")) = Some (arrow_of "left")
  /\ flankers (target_of (Py.VStr "left") (Py.VStr "incong"))
     = repeat (Some (if Py.eq_str (Py.VStr "incong") "cong"
                     then arrow_of "left" else opposite (arrow_of "left"))) 4
  /\ forall k t, answer (sample_world 0 (Pressed 102 350)) = Pressed k t ->
       (feedback_shown (events_of (sample_trial false false "left" "incong" "up")
                          (sample_world 0 (Pressed 102 350)))
        = Some (Fixation positive)
        <-> bound_direction k = Some "left").
Proof.
  apply (target_shows_direction_and_congruency
           (sample_trial false false "left" "incong" "up")
           (sample_world 0 (Pressed 102 350))
           (Py.VBool false) (Py.VBool false) (Py.VStr "left") (Py.VStr "incong")
           (Py.VStr "up") (0, 70) "left").
  - constructor; reflexivity.
  - reflexivity.
  - reflexivity.
  - left; reflexivity.
Defined.
